(** * ESP32 SPIFFS uploader: a shallow embedding of [main.py]

    The program drives the external [esptool] utility: it scans the serial
    ports for a device ([get_device], [ESP32.check_status]) and writes the
    members of a zip bundle to consecutive flash addresses
    ([GUI.upload_zip_folder]).

    Python values are modelled as follows.
    - [str] is [string], the text in its UTF-8 form.  Every needle the program
      searches for ([".bin"], ["."], ["/"], the two error texts) is ASCII, and
      an ASCII needle occurs in the UTF-8 form of a text exactly where it
      occurs in the text.
    - [bytes] is [list byte]; [bytes.decode()] is strict UTF-8 and may raise.
    - [int] is [Z]; [//] is floor division.  The status constants are small
      integers, on which [is] and [==] agree; [None] is the [None] of an
      option.
    - Exceptions are the left summand of the result of a computation; the
      world (local files and the log of external interactions) survives an
      exception, exactly as the side effects of a Python program do.
    - Everything outside the process (the serial port enumeration, the
      esptool subprocess, the file dialog, the zip archive) is an oracle,
      a variable of the section, that may answer differently as the log
      grows.  The tool is taken to be installed, and to leave the local files
      alone; writing the temporary file is taken to succeed.

    The widgets of [GUI.__init__] are not modelled.  Of [GUI.run] the polling
    task is, and the timer through the chain of polls it gives rise to; the
    status the task stores in [current_status] is the argument of
    [upload_zip_folder]. *)

From Stdlib Require Import ZArith String Ascii List DecimalString HexadecimalString.
From Stdlib.Strings Require Import Byte.
From stdpp Require Import base option list gmap strings.

Open Scope string_scope.
Open Scope Z_scope.

(** ** Python strings *)

Module Py.

(** [s.startswith(p)] *)
Fixpoint startswith (p s : string) : bool :=
  match p, s with
  | EmptyString, _ => true
  | String a p', String b s' => bool_decide (a = b) && startswith p' s'
  | String _ _, EmptyString => false
  end.

(** [sub in s] *)
Fixpoint contains (sub s : string) : bool :=
  startswith sub s ||
  match s with
  | EmptyString => false
  | String _ s' => contains sub s'
  end.

(** [s[n:]] for [0 <= n] *)
Fixpoint slice_from (n : nat) (s : string) : string :=
  match n, s with
  | O, _ => s
  | S n', String _ s' => slice_from n' s'
  | S _, EmptyString => EmptyString
  end.

(** [s.endswith(suf)] *)
Definition endswith (s suf : string) : bool :=
  (String.length suf <=? String.length s)%nat &&
  bool_decide (slice_from (String.length s - String.length suf) s = suf).

(** [s.rindex(sub)]: the highest index at which [sub] starts, [None] where
    Python raises [ValueError]. *)
Fixpoint rindex (s sub : string) : option nat :=
  match s with
  | EmptyString => if startswith sub EmptyString then Some O else None
  | String _ s' =>
      match rindex s' sub with
      | Some i => Some (S i)
      | None => if startswith sub s then Some O else None
      end
  end.

(** [hex(n)] *)
Definition hex (n : Z) : string :=
  if n <? 0
  then "-0x" ++ HexadecimalString.NilZero.string_of_uint (N.to_hex_uint (Z.to_N (- n)))
  else "0x" ++ HexadecimalString.NilZero.string_of_uint (N.to_hex_uint (Z.to_N n)).

(** [str(n)] for an [int] *)
Definition str (n : Z) : string :=
  DecimalString.NilZero.string_of_int (Z.to_int n).

(** A continuation byte of UTF-8, [0x80..0xBF]. *)
Definition cont (b : byte) : bool :=
  let n := Byte.to_N b in ((128 <=? n) && (n <=? 191))%N.

Definition between (lo hi : N) (b : byte) : bool :=
  let n := Byte.to_N b in ((lo <=? n) && (n <=? hi))%N.

(** Well-formed UTF-8 (RFC 3629: no overlong forms, no surrogates, nothing
    above U+10FFFF), the input on which [bytes.decode()] does not raise. *)
Fixpoint utf8_valid (bs : list byte) : bool :=
  match bs with
  | [] => true
  | b0 :: t0 =>
      if between 0 127 b0 then utf8_valid t0
      else match t0 with
      | [] => false
      | b1 :: t1 =>
          if between 194 223 b0 then cont b1 && utf8_valid t1
          else match t1 with
          | [] => false
          | b2 :: t2 =>
              if between 224 224 b0 then between 160 191 b1 && cont b2 && utf8_valid t2
              else if between 237 237 b0 then between 128 159 b1 && cont b2 && utf8_valid t2
              else if between 225 239 b0 then cont b1 && cont b2 && utf8_valid t2
              else match t2 with
              | [] => false
              | b3 :: t3 =>
                  if between 240 240 b0
                  then between 144 191 b1 && cont b2 && cont b3 && utf8_valid t3
                  else if between 241 243 b0
                  then cont b1 && cont b2 && cont b3 && utf8_valid t3
                  else if between 244 244 b0
                  then between 128 143 b1 && cont b2 && cont b3 && utf8_valid t3
                  else false
              end
          end
      end
  end.

(** [bs.decode()]: the text, kept in its UTF-8 form, or [None] where Python
    raises [UnicodeDecodeError]. *)
Definition decode (bs : list byte) : option string :=
  if utf8_valid bs then Some (string_of_list_byte bs) else None.

End Py.

(** ** Constants of the module *)

Definition DISABLE_CONSOLE_OUTPUT : bool := true.

Definition CHUNK_SIZE : Z := 0x1000.

Definition DEVICE_FOUND : Z := 0.
Definition BOOT_MODE_ERROR : Z := 1.
Definition BOOT_MODE_ERROR_TEXT : string := "Wrong boot mode detected".
Definition NO_DEVICE_FOUND : Z := 2.
Definition NO_DEVICE_FOUND_TEXT : string := "fatal error occurred: Failed to connect".

(** ** The world and the computations over it *)

Inductive exn : Type :=
| AttributeError
| ValueError
| NameError (name : string)
| UnicodeDecodeError
| FileNotFoundError (path : string)
| BadZipFile (path : string)
| CalledProcessError (returncode : Z) (cmd : list string).

(** What the process does to its surroundings, in order. *)
Inductive event : Type :=
| EvComports                               (* list_ports.comports() *)
| EvSubprocessRun (args : list string)     (* subprocess.run(args, ...) *)
| EvAskOpenFilename                        (* filedialog.askopenfilename(...) *)
| EvStatusConfig (text : string)           (* self.status.config(text=...) *)
| EvUpdate                                 (* self.update() *)
| EvZipFileOpen (path : string)            (* zipfile.ZipFile(path).__enter__ *)
| EvZipFileClose (path : string)           (* ... .__exit__ *)
| EvZipMemberOpen (name : string)          (* zip.open(member, mode='r') *)
| EvZipMemberClose (name : string)         (* f.close() *)
| EvPrint (text : string).                 (* print(...) *)

Record World : Type := mkWorld {
  files : gmap string (list byte);       (* the local file system *)
  log : list event                       (* oldest event first *)
}.

Definition M (A : Type) : Type := World → (exn + A) * World.

Global Instance M_ret : MRet M := λ A a w, (inr a, w).

Global Instance M_bind : MBind M := λ A B f m w,
  match m w with
  | (inr a, w') => f a w'
  | (inl e, w') => (inl e, w')
  end.

Definition raise {A} (e : exn) : M A := λ w, (inl e, w).

Definition emit (ev : event) : M unit :=
  λ w, (inr tt, mkWorld (files w) (log w ++ [ev])).

Definition print (text : string) : M unit := emit (EvPrint text).

(** [with open(path, 'wb') as f: f.write(data)] *)
Definition write_file (path : string) (data : list byte) : M unit :=
  λ w, (inr tt, mkWorld (<[path := data]> (files w)) (log w)).

(** [os.path.getsize(path)] *)
Definition getsize (path : string) : M Z :=
  λ w, match files w !! path with
       | Some data => (inr (Z.of_nat (length data)), w)
       | None => (inl (FileNotFoundError path), w)
       end.

(** [os.remove(path)] *)
Definition remove (path : string) : M unit :=
  λ w, match files w !! path with
       | Some _ => (inr tt, mkWorld (delete path (files w)) (log w))
       | None => (inl (FileNotFoundError path), w)
       end.

(** [bytes.decode()] inside a computation *)
Definition decode (bs : list byte) : M string :=
  match Py.decode bs with
  | Some text => mret text
  | None => raise UnicodeDecodeError
  end.

(** ** Data of the program *)

(** [subprocess.CompletedProcess] with [capture_output=True] *)
Record CompletedProcess : Type := mkCompletedProcess {
  returncode : Z;
  stdout : list byte;
  stderr : list byte
}.

(** A member of the archive: the [ZipInfo] and the bytes that reading the
    member yields. *)
Record ZipInfo : Type := mkZipInfo {
  filename : option string;
  member_bytes : list byte
}.

Record ESP32 : Type := mkESP32 { port : string }.

(** ** The upload order

    Lines 203-204 of [upload_zip_folder]: the entries whose name ends in
    [.bin], then the others.  [endswith] on a name that is [None] raises. *)

Fixpoint select (want : bool) (filelist : list ZipInfo) : exn + list ZipInfo :=
  match filelist with
  | [] => inr []
  | file_name :: rest =>
      match filename file_name with
      | None => inl AttributeError
      | Some name =>
          match select want rest with
          | inl e => inl e
          | inr chosen =>
              inr (if Bool.eqb (Py.endswith name ".bin") want
                   then file_name :: chosen else chosen)
          end
      end
  end.

Definition file_list (filelist : list ZipInfo) : exn + list ZipInfo :=
  match select true filelist with
  | inl e => inl e
  | inr images =>
      match select false filelist with
      | inl e => inl e
      | inr others => inr (images ++ others)%list
      end
  end.

Definition lift {A} (r : exn + A) : M A := λ w, (r, w).

(** [file_name.filename in [None, '/']], the guard of line 210. *)
Definition unwanted (file_name : ZipInfo) : bool :=
  match filename file_name with
  | None => true
  | Some name => bool_decide (name = "/")
  end.

(** The name of line 219, [f'temp{file_name[file_name.rindex("."):]}']; [None]
    where [rindex] raises. *)
Definition temp_path (name : string) : option string :=
  match Py.rindex name "." with
  | Some dot => Some ("temp" ++ Py.slice_from dot name)
  | None => None
  end.

(** The pure content of the loop of lines 208-237: the entries it does not
    skip, each with the value [current_address] has when it is uploaded, or
    the exception of line 219 when a name has no dot.  The size is the one
    line 233 reads back from the temporary file, the length of the member. *)
Fixpoint plan_from (file_list : list ZipInfo) (current_address : Z)
    : exn + list (ZipInfo * Z) :=
  match file_list with
  | [] => inr []
  | file_name :: rest =>
      match filename file_name with
      | None => plan_from rest current_address
      | Some name =>
          if bool_decide (name = "/") then plan_from rest current_address
          else
            match temp_path name with
            | None => inl ValueError
            | Some _ =>
                let size := Z.of_nat (length (member_bytes file_name)) in
                match plan_from rest (((current_address + size) `div` CHUNK_SIZE + 1) * CHUNK_SIZE) with
                | inl e => inl e
                | inr later => inr ((file_name, current_address) :: later)
                end
            end
      end
  end.

(** Lines 201-204 followed by the loop. *)
Definition plan (filelist : list ZipInfo) : exn + list (ZipInfo * Z) :=
  match file_list filelist with
  | inl e => inl e
  | inr ordered => plan_from ordered 0x0
  end.

(** ** The program *)

Section Program.

(** [CONFIG['baud_rate']].  [check_status] puts it into the argument vector
    as it is, so the configuration holds it as a string, and [str] of a
    string is that string. *)
Variable BAUD_RATE : string.

(** The surroundings.  Each oracle sees the log so far. *)
Variable comports : list event → list (string * string * string).
Variable esptool : list event → list string → CompletedProcess.
Variable askopenfilename : list event → string.
Variable zip_filelist : list event → string → option (list ZipInfo).

(** [subprocess.run(args, check=check, capture_output=True)] *)
Definition subprocess_run (args : list string) (check : bool) : M CompletedProcess :=
  λ w,
    let result := esptool (log w) args in
    let w' := mkWorld (files w) (log w ++ [EvSubprocessRun args]) in
    if check && negb (returncode result =? 0)
    then (inl (CalledProcessError (returncode result) args), w')
    else (inr result, w').

Definition get_used_ports : M (list (string * string * string)) :=
  λ w, (inr (comports (log w)), mkWorld (files w) (log w ++ [EvComports])).

(** *** class ESP32 *)

Definition check_status (self : ESP32) : M Z :=
  result ← subprocess_run ["esptool"; "--port"; port self; "--baud"; BAUD_RATE; "flash_id"] false;
  text ← decode (stdout result);
  (if negb DISABLE_CONSOLE_OUTPUT then print text else mret tt);;
  if Py.contains BOOT_MODE_ERROR_TEXT text then mret BOOT_MODE_ERROR
  else if Py.contains NO_DEVICE_FOUND_TEXT text then mret NO_DEVICE_FOUND
  else mret DEVICE_FOUND.

Definition upload_file (self : ESP32) (address : Z) (file_path : string) : M unit :=
  result ← subprocess_run ["esptool"; "--port"; port self; "--baud"; BAUD_RATE; "write_flash";
                           "--flash_size=detect"; Py.hex address; file_path] true;
  if negb DISABLE_CONSOLE_OUTPUT then text ← decode (stdout result); print text else mret tt.

Definition upload_program (self : ESP32) (address : Z) (file_path : string) : M unit :=
  result ← subprocess_run ["esptool"; "--port"; port self; "--baud"; BAUD_RATE; "write_flash";
                           "--flash_size=detect"; Py.hex address; file_path] true;
  if negb DISABLE_CONSOLE_OUTPUT then text ← decode (stdout result); print text else mret tt.

Definition clear_flash (self : ESP32) : M unit :=
  result ← subprocess_run ["esptool"; "--port"; port self; "--baud"; BAUD_RATE; "erase_flash"] true;
  if negb DISABLE_CONSOLE_OUTPUT then text ← decode (stdout result); print text else mret tt.

(** *** get_device *)

(** The [for port in ports] loop with its [else] branch. *)
Fixpoint get_device_loop (ports : list (string * string * string)) : M (option ESP32 * Z) :=
  match ports with
  | [] => mret (None, NO_DEVICE_FOUND)
  | p :: rest =>
      let device := mkESP32 (p.1.1) in
      status ← check_status device;
      if status =? DEVICE_FOUND then mret (Some device, status)
      else if status =? BOOT_MODE_ERROR then mret (None, status)
      else get_device_loop rest
  end.

Definition get_device : M (option ESP32 * Z) :=
  ports ← get_used_ports;
  get_device_loop ports.

(** *** GUI.upload_zip_folder *)

(** [with zipfile.ZipFile(file_path) as zip: body(zip.filelist)]: the archive
    is closed on the way out, also when the body raises. *)
Definition with_ZipFile {A} (file_path : string) (body : list ZipInfo → M A) : M A :=
  λ w,
    match zip_filelist (log w) file_path with
    | None => (inl (BadZipFile file_path), w)
    | Some filelist =>
        let '(r, w') := body filelist (mkWorld (files w) (log w ++ [EvZipFileOpen file_path])) in
        (r, mkWorld (files w') (log w' ++ [EvZipFileClose file_path]))
    end.

(** The body of the [for i, file_name in enumerate(file_list, 1)] loop and
    its iteration; the value is [current_address] after the last entry. *)
Fixpoint upload_loop (device : ESP32) (i : Z) (file_list : list ZipInfo)
    (current_address : Z) : M Z :=
  match file_list with
  | [] => mret current_address
  | file_name :: rest =>
      match filename file_name with
      | None => upload_loop device (i + 1) rest current_address
      | Some name =>
          if bool_decide (name = "/")
          then upload_loop device (i + 1) rest current_address
          else
            emit (EvZipMemberOpen name);;
            print ("  (" ++ Py.str i ++ ") - " ++ name);;
            path ← from_option mret (raise ValueError) (temp_path name);
            write_file path (member_bytes file_name);;
            emit (EvZipMemberClose name);;
            (if Py.endswith name ".bin"
             then upload_program device current_address path
             else upload_file device current_address path);;
            size ← getsize path;
            let current_address := ((current_address + size) `div` CHUNK_SIZE + 1) * CHUNK_SIZE in
            remove path;;
            upload_loop device (i + 1) rest current_address
      end
  end.

Definition upload_zip_folder (current_status : option Z) : M bool :=
  if negb (bool_decide (current_status = Some DEVICE_FOUND)) then mret false
  else
    file_path ← (λ w, (inr (askopenfilename (log w)),
                        mkWorld (files w) (log w ++ [EvAskOpenFilename])));
    emit (EvStatusConfig "Uploading files... (this may take a while)");;
    emit EvUpdate;;
    found ← get_device;
    match found.1 with
    | None =>
        (* [self.after(1000, task)]: no [task] is in scope here *)
        raise (NameError "task")
    | Some device =>
        clear_flash device;;
        with_ZipFile file_path (λ filelist,
          file_list ← lift (file_list filelist);
          print ("Uploading ZIP file contents... (" ++
                 Py.str (Z.of_nat (length file_list)) ++ " files)");;
          upload_loop device 1 file_list 0x0);;
        print "File uploading complete!";;
        emit (EvStatusConfig "Files uploaded successfully!");;
        mret true
    end.

End Program.

(** ** The poller of [GUI.run] *)

Definition DEVICE_FOUND_OUTPUT : string := "ESP device found. Ready to upload.".
Definition BOOT_MODE_ERROR_OUTPUT : string :=
  "ESP device not in proper boot mode. Please put the device in download mode.".
Definition NO_DEVICE_FOUND_OUTPUT : string :=
  "No ESP device found. Please attach the device through a USB port.".

Section Poller.

Variable BAUD_RATE : string.
Variable comports : list event → list (string * string * string).
Variable esptool : list event → list string → CompletedProcess.

(** The [task] of [GUI.run], lines 144-165.  The value is the status it
    stores in the global [current_status] and whether it has scheduled itself
    again with [self.after(1000, task)], the last statement of the task. *)
Definition task : M (Z * bool) :=
  found ← get_device BAUD_RATE comports esptool;
  let current_status := found.2 in
  if current_status =? DEVICE_FOUND
  then
    emit (EvStatusConfig DEVICE_FOUND_OUTPUT);;
    mret (current_status, false)
  else
    (if current_status =? BOOT_MODE_ERROR
     then emit (EvStatusConfig BOOT_MODE_ERROR_OUTPUT) else mret tt);;
    (if current_status =? NO_DEVICE_FOUND
     then emit (EvStatusConfig NO_DEVICE_FOUND_OUTPUT) else mret tt);;
    mret (current_status, true).


End Poller.

(** ** Abbreviations used in the statements *)

Definition flash_id_args (BAUD_RATE : string) (self : ESP32) : list string :=
  ["esptool"; "--port"; port self; "--baud"; BAUD_RATE; "flash_id"].

Definition erase_flash_args (BAUD_RATE : string) (self : ESP32) : list string :=
  ["esptool"; "--port"; port self; "--baud"; BAUD_RATE; "erase_flash"].

Definition write_flash_args (BAUD_RATE : string) (self : ESP32) (address : Z)
    (file_path : string) : list string :=
  ["esptool"; "--port"; port self; "--baud"; BAUD_RATE; "write_flash";
   "--flash_size=detect"; Py.hex address; file_path].

(** [sub] occurs in [s]. *)
Definition occurs_in (sub s : string) : Prop :=
  ∃ before after, s = before ++ sub ++ after.

(** The same process result with another exit status. *)
Definition with_returncode (rc : Z) (p : CompletedProcess) : CompletedProcess :=
  mkCompletedProcess rc (stdout p) (stderr p).

(** An entry the planner treats as an image. *)
Definition is_image (file_name : ZipInfo) : bool :=
  match filename file_name with
  | Some name => Py.endswith name ".bin"
  | None => false
  end.

(** Rounding up to a multiple of the chunk size, as the specification words
    it: [ceil(x / CHUNK_SIZE) * CHUNK_SIZE]. *)
Definition round_up_to_chunk (x : Z) : Z := - ((- x) `div` CHUNK_SIZE) * CHUNK_SIZE.

(** Probing every port of [ports] in turn, starting in [w], finds no device
    on any of them and leaves the world [w']. *)
Inductive all_miss (BAUD_RATE : string) (esptool : list event → list string → CompletedProcess)
    : World → list (string * string * string) → World → Prop :=
| all_miss_nil w : all_miss BAUD_RATE esptool w [] w
| all_miss_cons w w1 w' p rest :
    check_status BAUD_RATE esptool (mkESP32 p.1.1) w = (inr NO_DEVICE_FOUND, w1) →
    all_miss BAUD_RATE esptool w1 rest w' →
    all_miss BAUD_RATE esptool w (p :: rest) w'.

(** The trace one probe of the port [p] leaves in the log. *)
Definition probe_event (BAUD_RATE : string) (p : string * string * string) : event :=
  EvSubprocessRun (flash_id_args BAUD_RATE (mkESP32 p.1.1)).

(** What the loop logs for entry number [i] before it runs the tool. *)
Definition announce (i : Z) (name : string) : list event :=
  [EvZipMemberOpen name; EvPrint ("  (" ++ Py.str i ++ ") - " ++ name)].

(** The command lines of the processes in a log. *)
Definition runs (l : list event) : list (list string) :=
  omap (λ ev, match ev with EvSubprocessRun args => Some args | _ => None end) l.



(** [result] holds the entries of [original], the images first and the others
    after them, each group in the order it has in [original]. *)
Definition stable_partition (result original : list ZipInfo) : Prop :=
  (∀ (i j : nat) (x y : ZipInfo),
     result !! i = Some x → result !! j = Some y →
     is_image x = true → is_image y = false → (i < j)%nat) ∧
  List.filter is_image result = List.filter is_image original ∧
  List.filter (λ x, negb (is_image x)) result =
    List.filter (λ x, negb (is_image x)) original.

(** A [flash_id] command line, and a [write_flash] command line for the
    device [device]. *)
Definition is_probe (BAUD_RATE : string) (args : list string) : Prop :=
  ∃ self, args = flash_id_args BAUD_RATE self.

Definition is_write_to (BAUD_RATE : string) (device : ESP32) (args : list string) : Prop :=
  ∃ address path, args = write_flash_args BAUD_RATE device address path.

(** The number of bytes of a member. *)
Definition size_of (file_name : ZipInfo) : Z := Z.of_nat (length (member_bytes file_name)).

(** The bytes of the first [k] entries of a plan. *)
Definition bytes_before (k : nat) (p : list (ZipInfo * Z)) : Z :=
  foldr (λ entry total, size_of entry.1 + total) 0 (take k p).

(** Bytes below 0x80. *)
Definition ascii_only (bs : list byte) : Prop :=
  Forall (λ b, (Byte.to_N b < 128)%N) bs.

(** The text the poller shows for a status. *)
Definition status_text (status : Z) : string :=
  if status =? DEVICE_FOUND then DEVICE_FOUND_OUTPUT
  else if status =? BOOT_MODE_ERROR then BOOT_MODE_ERROR_OUTPUT
  else NO_DEVICE_FOUND_OUTPUT.

(** ** Concrete surroundings for the examples *)

Definition empty_world : World := mkWorld ∅ [].

Definition bytes_of (s : string) : list byte := list_byte_of_string s.

(** A tool that prints [out] on stdout and [err] on stderr and exits with
    [rc], whatever it is asked. *)
Definition tool_saying (rc : Z) (out err : string)
    : list event → list string → CompletedProcess :=
  λ _ _, mkCompletedProcess rc (bytes_of out) (bytes_of err).

(** A tool whose answer to [flash_id] depends on the port: [table] gives the
    stdout text per port, ports not listed fail to connect. *)
Definition tool_by_port (table : list (string * string))
    : list event → list string → CompletedProcess :=
  λ _ args,
    match args !! 2%nat with
    | Some p =>
        match list_find (λ row, row.1 = p) table with
        | Some (_, row) => mkCompletedProcess 0 (bytes_of row.2) []
        | None => mkCompletedProcess 2 (bytes_of ("A " ++ NO_DEVICE_FOUND_TEXT)) []
        end
    | None => mkCompletedProcess 2 [] []
    end.

Definition port_info (device : string) : string * string * string :=
  (device, "USB Serial", "USB VID:PID=10C4:EA60").

(** Three ports: nothing answers on A, the device on B is in the wrong boot
    mode, the one on C is ready. *)
Definition abc_ports : list event → list (string * string * string) :=
  λ _, [port_info "A"; port_info "B"; port_info "C"].

Definition abc_tool : list event → list string → CompletedProcess :=
  tool_by_port [("B", "Wrong boot mode detected (0x13)! The chip needs to be in download mode.");
                ("C", "Detecting chip type... ESP32")].

(** A bundle and a session on it: one port, the user picks [bundle.zip]. *)
Definition a_txt : ZipInfo := mkZipInfo (Some "a.txt") (repeat x00 10).
Definition b_bin : ZipInfo := mkZipInfo (Some "b.bin") (repeat x00 5000).
Definition slash : ZipInfo := mkZipInfo (Some "/") [].
Definition nameless : ZipInfo := mkZipInfo (Some "") [].
Definition page_bin : ZipInfo := mkZipInfo (Some "page.bin") (repeat x00 4096).

Definition tool_ok : list event → list string → CompletedProcess :=
  tool_saying 0 "" "".

(** A tool on which every [write_flash] exits with status 2. *)
Definition tool_failing_write : list event → list string → CompletedProcess :=
  λ _ args,
    if bool_decide ("write_flash" ∈ args)
    then mkCompletedProcess 2 (bytes_of "A fatal error occurred: Timed out") []
    else mkCompletedProcess 0 [] [].

Definition bundle (entries : list ZipInfo) : list event → string → option (list ZipInfo) :=
  λ _ path, if bool_decide (path = "bundle.zip") then Some entries else None.

Definition session (tool : list event → list string → CompletedProcess)
    (entries : list ZipInfo) : (exn + bool) * World :=
  upload_zip_folder "115200" (λ _, [port_info "COM3"]) tool (λ _, "bundle.zip")
    (bundle entries) (Some DEVICE_FOUND) empty_world.

(** The tool of [abc_tool], except that the answer on port B is not UTF-8. *)
Definition tool_garbled : list event → list string → CompletedProcess :=
  λ h args,
    if bool_decide (args !! 2%nat = Some "B")
    then mkCompletedProcess 0 [xff; xfe] []
    else abc_tool h args.

(** A tool on which [erase_flash] exits with status 1. *)
Definition tool_failing_erase : list event → list string → CompletedProcess :=
  λ _ args,
    if bool_decide ("erase_flash" ∈ args)
    then mkCompletedProcess 1 (bytes_of "A fatal error occurred: Timed out") []
    else mkCompletedProcess 0 [] [].

(** The log of a session on one port up to the point where the device is
    resolved again. *)
Definition resolved_log : list event :=
  [EvAskOpenFilename; EvStatusConfig "Uploading files... (this may take a while)";
   EvUpdate; EvComports;
   EvSubprocessRun ["esptool"; "--port"; "COM3"; "--baud"; "115200"; "flash_id"]].

Definition erase_event : event :=
  EvSubprocessRun ["esptool"; "--port"; "COM3"; "--baud"; "115200"; "erase_flash"].


(** * Properties *)

(** ** Strings *)

Lemma startswith_spec (p s : string) :
  Py.startswith p s = true ↔ ∃ after, s = p ++ after.
Proof.
  revert s. induction p as [|a p IH]; intros s; simpl.
  - split; [intros _; by exists s | done].
  - destruct s as [|b s].
    + split; [done | intros [after H]; discriminate H].
    + rewrite andb_true_iff, bool_decide_eq_true, IH. split.
      * intros [-> [after ->]]. by exists after.
      * intros [after H]. injection H as -> ->. split; [done | by exists after].
Qed.

Lemma contains_spec (sub s : string) :
  Py.contains sub s = true ↔ occurs_in sub s.
Proof.
  unfold occurs_in. induction s as [|c s IH]; simpl.
  - rewrite orb_false_r, startswith_spec. split.
    + intros [after H]. by exists "", after.
    + intros [before [after H]]. destruct before; [by exists after | discriminate H].
  - rewrite orb_true_iff, startswith_spec, IH. split.
    + intros [[after H] | [before [after H]]].
      * by exists "", after.
      * exists (String c before), after. simpl. by rewrite H.
    + intros [before [after H]]. destruct before as [|b before]; simpl in H.
      * left. by exists after.
      * right. injection H as -> ->. by exists before, after.
Qed.

(** The string functions on the inputs the program meets. *)
Example rindex_last_dot : Py.rindex "bundle.tar.gz" "." = Some 10%nat.
Proof. reflexivity. Qed.

Example temp_path_keeps_extension :
  temp_path "bundle.tar.gz" = Some "temp.gz" ∧ temp_path "img/boot.bin" = Some "temp.bin".
Proof. split; reflexivity. Qed.

Example temp_path_without_dot : temp_path "data/" = None ∧ temp_path "" = None.
Proof. split; reflexivity. Qed.

Example endswith_bin :
  Py.endswith "boot.bin" ".bin" = true ∧ Py.endswith "bin" ".bin" = false ∧
  Py.endswith "boot.bin.txt" ".bin" = false.
Proof. repeat split; reflexivity. Qed.

Example hex_of_addresses :
  Py.hex 0 = "0x0" ∧ Py.hex 4096 = "0x1000" ∧ Py.hex 48879 = "0xbeef".
Proof. repeat split; reflexivity. Qed.

Example decode_strict :
  Py.decode [x68; x69] = Some "hi" ∧ Py.decode [xc3; xa9] = Some (String "195" (String "169" "")) ∧
  Py.decode [xc3] = None ∧ Py.decode [xff] = None.
Proof. repeat split; reflexivity. Qed.

Lemma contains_false (sub s : string) :
  Py.contains sub s = false ↔ ¬ occurs_in sub s.
Proof. rewrite <- contains_spec. by destruct (Py.contains sub s). Qed.

(** ** The adapter *)

Section Adapter.

Variable BAUD_RATE : string.
Variable esptool : list event → list string → CompletedProcess.

(** What one probe does: one process, and a status read off its stdout. *)
Lemma check_status_eq (self : ESP32) (w : World) :
  check_status BAUD_RATE esptool self w =
  (match Py.decode (stdout (esptool (log w) (flash_id_args BAUD_RATE self))) with
   | None => inl UnicodeDecodeError
   | Some text =>
       inr (if Py.contains BOOT_MODE_ERROR_TEXT text then BOOT_MODE_ERROR
            else if Py.contains NO_DEVICE_FOUND_TEXT text then NO_DEVICE_FOUND
            else DEVICE_FOUND)
   end,
   mkWorld (files w) (log w ++ [EvSubprocessRun (flash_id_args BAUD_RATE self)])).
Proof.
  unfold check_status, subprocess_run, decode, flash_id_args, mbind, M_bind. simpl.
  destruct (Py.decode _) as [text|]; [|done]. simpl.
  by repeat case_match.
Qed.

Lemma check_status_log (self : ESP32) (w : World) :
  (check_status BAUD_RATE esptool self w).2 =
  mkWorld (files w) (log w ++ [EvSubprocessRun (flash_id_args BAUD_RATE self)]).
Proof. by rewrite check_status_eq. Qed.

(** A write: one process; a nonzero exit status raises. *)
Lemma upload_program_eq (self : ESP32) (address : Z) (file_path : string) (w : World) :
  upload_program BAUD_RATE esptool self address file_path w =
  (let args := write_flash_args BAUD_RATE self address file_path in
   let rc := returncode (esptool (log w) args) in
   if rc =? 0 then inr tt else inl (CalledProcessError rc args),
   mkWorld (files w) (log w ++ [EvSubprocessRun (write_flash_args BAUD_RATE self address file_path)])).
Proof.
  unfold upload_program, subprocess_run, write_flash_args, mbind, M_bind. simpl.
  by destruct (_ =? 0).
Qed.

Lemma upload_file_eq (self : ESP32) (address : Z) (file_path : string) (w : World) :
  upload_file BAUD_RATE esptool self address file_path w =
  upload_program BAUD_RATE esptool self address file_path w.
Proof. reflexivity. Qed.

End Adapter.

(** C6.  The status of a probe is read off the decoded stdout text [text]:
    [BOOT_MODE_ERROR] whenever the boot-mode text occurs in it (also when the
    no-device text occurs too), [NO_DEVICE_FOUND] when only the no-device text
    occurs, [DEVICE_FOUND] when neither does.  The exit status plays no part:
    the probe behaves the same for every return code, so a nonzero one never
    makes it raise. *)
Theorem check_status_classifies_text
    (BAUD_RATE : string) (esptool : list event → list string → CompletedProcess)
    (self : ESP32) (w : World) (text : string) :
  Py.decode (stdout (esptool (log w) (flash_id_args BAUD_RATE self))) = Some text →
  (occurs_in BOOT_MODE_ERROR_TEXT text →
     (check_status BAUD_RATE esptool self w).1 = inr BOOT_MODE_ERROR) ∧
  (¬ occurs_in BOOT_MODE_ERROR_TEXT text → occurs_in NO_DEVICE_FOUND_TEXT text →
     (check_status BAUD_RATE esptool self w).1 = inr NO_DEVICE_FOUND) ∧
  (¬ occurs_in BOOT_MODE_ERROR_TEXT text → ¬ occurs_in NO_DEVICE_FOUND_TEXT text →
     (check_status BAUD_RATE esptool self w).1 = inr DEVICE_FOUND) ∧
  (∀ rc : Z,
     check_status BAUD_RATE (λ h args, with_returncode rc (esptool h args)) self w =
     check_status BAUD_RATE esptool self w).
Proof.
  intros Htext. rewrite !check_status_eq, Htext. simpl. repeat split.
  - intros Hboot%contains_spec. by rewrite Hboot.
  - intros Hboot%contains_false Hnodev%contains_spec. by rewrite Hboot, Hnodev.
  - intros Hboot%contains_false Hnodev%contains_false. by rewrite Hboot, Hnodev.
  - intros rc. rewrite check_status_eq. simpl. by rewrite Htext.
Qed.

Lemma check_status_classifies_text_witness :
  (check_status "115200"
     (tool_saying 2 "Wrong boot mode detected (0x13)! A fatal error occurred: Failed to connect" "")
     (mkESP32 "COM3") empty_world).1 = inr BOOT_MODE_ERROR.
Proof.
  refine (proj1 (check_status_classifies_text "115200" _ (mkESP32 "COM3") empty_world
    "Wrong boot mode detected (0x13)! A fatal error occurred: Failed to connect" _) _).
  - vm_compute. reflexivity.
  - exists "", " (0x13)! A fatal error occurred: Failed to connect". reflexivity.
Defined.

(** C7, as the code has it.  The status of a probe is determined by the
    stdout of the tool alone: two tools that print the same on stdout get the
    same status and leave the same world, whatever they print on stderr. *)
Theorem check_status_reads_stdout_only
    (BAUD_RATE : string) (esptool1 esptool2 : list event → list string → CompletedProcess)
    (self : ESP32) (w : World) :
  stdout (esptool1 (log w) (flash_id_args BAUD_RATE self)) =
  stdout (esptool2 (log w) (flash_id_args BAUD_RATE self)) →
  check_status BAUD_RATE esptool1 self w = check_status BAUD_RATE esptool2 self w.
Proof. intros Hout. by rewrite !check_status_eq, Hout. Qed.

Lemma check_status_reads_stdout_only_witness :
  check_status "115200" (tool_saying 2 "" "Wrong boot mode detected") (mkESP32 "COM3") empty_world =
  check_status "115200" (tool_saying 0 "" "") (mkESP32 "COM3") empty_world.
Proof. apply check_status_reads_stdout_only. reflexivity. Defined.

(** C7 fails as stated: the boot-mode text on stderr only, and the probe
    answers [DEVICE_FOUND]. *)
Lemma check_status_misses_stderr :
  occurs_in BOOT_MODE_ERROR_TEXT "Wrong boot mode detected" ∧
  (check_status "115200" (tool_saying 2 "" "Wrong boot mode detected")
     (mkESP32 "COM3") empty_world).1 = inr DEVICE_FOUND ∧
  (check_status "115200" (tool_saying 2 "" "Wrong boot mode detected")
     (mkESP32 "COM3") empty_world).1 ≠ inr BOOT_MODE_ERROR.
Proof.
  split; [by exists "", "" |]. split; [by vm_compute |].
  vm_compute. discriminate.
Qed.

(** C10.  The two write operations are the same computation: on every
    device, address, path and world they run the same [write_flash] command
    line, and they end with the same result in the same world. *)
Theorem upload_file_is_upload_program
    (BAUD_RATE : string) (esptool : list event → list string → CompletedProcess)
    (self : ESP32) (address : Z) (file_path : string) (w : World) :
  upload_file BAUD_RATE esptool self address file_path w =
  upload_program BAUD_RATE esptool self address file_path w ∧
  log (upload_file BAUD_RATE esptool self address file_path w).2 =
  (log w ++ [EvSubprocessRun (write_flash_args BAUD_RATE self address file_path)])%list.
Proof.
  split; [reflexivity |].
  change (upload_file BAUD_RATE esptool self address file_path w)
    with (upload_program BAUD_RATE esptool self address file_path w).
  by rewrite upload_program_eq.
Qed.

(** ** The resolver *)

Section Resolver.

Variable BAUD_RATE : string.
Variable comports : list event → list (string * string * string).
Variable esptool : list event → list string → CompletedProcess.

Lemma all_miss_world (w w' : World) (ports : list (string * string * string)) :
  all_miss BAUD_RATE esptool w ports w' →
  files w' = files w ∧
  log w' = (log w ++ map (probe_event BAUD_RATE) ports)%list.
Proof.
  induction 1 as [w | w w1 w' p rest Hp _ [IHf IHl]]; simpl.
  - by rewrite app_nil_r.
  - pose proof (check_status_log BAUD_RATE esptool (mkESP32 p.1.1) w) as Hw1.
    rewrite Hp in Hw1. simpl in Hw1. subst w1. simpl in *.
    by rewrite IHf, IHl, <- app_assoc.
Qed.

(** Ports that do not answer are passed over. *)
Lemma get_device_loop_miss (w w1 : World) (before rest : list (string * string * string)) :
  all_miss BAUD_RATE esptool w before w1 →
  get_device_loop BAUD_RATE esptool (before ++ rest) w =
  get_device_loop BAUD_RATE esptool rest w1.
Proof.
  induction 1 as [w | w w1 w' p before Hp _ IH]; [done |].
  simpl. unfold mbind, M_bind at 1. by rewrite Hp.
Qed.

Lemma get_device_eq (w : World) :
  get_device BAUD_RATE comports esptool w =
  get_device_loop BAUD_RATE esptool (comports (log w))
    (mkWorld (files w) (log w ++ [EvComports])).
Proof. reflexivity. Qed.

End Resolver.

(** C5.  [get_device] over the ports the enumeration yields.  Let the ports
    [before] all probe [NO_DEVICE_FOUND], one after the other.  If the list
    is [before] alone (the empty list included) the answer is
    [(None, NO_DEVICE_FOUND)].  If the next port [p] probes [DEVICE_FOUND] the
    answer is the device on [p] with [DEVICE_FOUND]; if it probes
    [BOOT_MODE_ERROR] the answer is [(None, BOOT_MODE_ERROR)].  In both cases
    the world is the one right after the probe of [p]: the log holds the
    probes of [before] and of [p] and nothing of the ports [after]. *)
Theorem get_device_first_definitive
    (BAUD_RATE : string) (comports : list event → list (string * string * string))
    (esptool : list event → list string → CompletedProcess)
    (w w1 : World) (before after : list (string * string * string))
    (p : string * string * string) :
  all_miss BAUD_RATE esptool (mkWorld (files w) (log w ++ [EvComports])) before w1 →
  (comports (log w) = before →
     get_device BAUD_RATE comports esptool w = (inr (None, NO_DEVICE_FOUND), w1)) ∧
  (comports (log w) = (before ++ p :: after)%list →
     ∀ status, (status = DEVICE_FOUND ∨ status = BOOT_MODE_ERROR) →
     (check_status BAUD_RATE esptool (mkESP32 p.1.1) w1).1 = inr status →
     get_device BAUD_RATE comports esptool w =
       (inr (if status =? DEVICE_FOUND then Some (mkESP32 p.1.1) else None, status),
        mkWorld (files w)
          (log w ++ [EvComports] ++ map (probe_event BAUD_RATE) (before ++ [p])))).
Proof.
  intros Hmiss. destruct (all_miss_world _ _ _ _ _ Hmiss) as [Hf Hl]. simpl in *.
  split; intros Hports; rewrite get_device_eq, Hports.
  - rewrite <- (app_nil_r before) at 1.
    by rewrite (get_device_loop_miss _ _ _ _ _ _ Hmiss).
  - intros status Hstatus Hprobe.
    rewrite (get_device_loop_miss _ _ _ _ _ _ Hmiss). simpl.
    unfold mbind, M_bind at 1.
    pose proof (check_status_log BAUD_RATE esptool (mkESP32 p.1.1) w1) as Hw2.
    destruct (check_status BAUD_RATE esptool (mkESP32 p.1.1) w1) as [r w2].
    simpl in *. subst r w2.
    rewrite Hf, Hl, map_app, <- !app_assoc. simpl.
    by destruct Hstatus as [-> | ->].
Qed.

Lemma get_device_first_definitive_witness :
  get_device "115200" abc_ports abc_tool empty_world =
  (inr (None, BOOT_MODE_ERROR),
   mkWorld ∅ [EvComports;
              EvSubprocessRun ["esptool"; "--port"; "A"; "--baud"; "115200"; "flash_id"];
              EvSubprocessRun ["esptool"; "--port"; "B"; "--baud"; "115200"; "flash_id"]]).
Proof.
  refine (proj2 (get_device_first_definitive "115200" abc_ports abc_tool empty_world _
                   [port_info "A"] [port_info "C"] (port_info "B") _)
            _ BOOT_MODE_ERROR _ _).
  - eapply all_miss_cons; [vm_compute; reflexivity | apply all_miss_nil].
  - reflexivity.
  - right. reflexivity.
  - vm_compute. reflexivity.
Defined.

(** The other two cases of the resolver on concrete port lists. *)
Example get_device_no_ports :
  get_device "115200" (λ _, []) abc_tool empty_world =
  (inr (None, NO_DEVICE_FOUND), mkWorld ∅ [EvComports]).
Proof. vm_compute. reflexivity. Qed.

Example get_device_second_port :
  get_device "115200" (λ _, [port_info "A"; port_info "C"]) abc_tool empty_world =
  (inr (Some (mkESP32 "C"), DEVICE_FOUND),
   mkWorld ∅ [EvComports;
              EvSubprocessRun ["esptool"; "--port"; "A"; "--baud"; "115200"; "flash_id"];
              EvSubprocessRun ["esptool"; "--port"; "C"; "--baud"; "115200"; "flash_id"]]).
Proof. vm_compute. reflexivity. Qed.

(** ** The guard of the upload *)

(** C9.  With any last known status other than [DEVICE_FOUND], the unset
    status included, [upload_zip_folder] returns [False] and leaves the world
    as it was: no dialog, no archive, no process. *)
Theorem upload_zip_folder_guard
    (BAUD_RATE : string) (comports : list event → list (string * string * string))
    (esptool : list event → list string → CompletedProcess)
    (askopenfilename : list event → string)
    (zip_filelist : list event → string → option (list ZipInfo))
    (current_status : option Z) (w : World) :
  current_status ≠ Some DEVICE_FOUND →
  upload_zip_folder BAUD_RATE comports esptool askopenfilename zip_filelist current_status w =
  (inr false, w).
Proof.
  intros Hstatus. unfold upload_zip_folder.
  by rewrite bool_decide_eq_false_2.
Qed.

Lemma upload_zip_folder_guard_witness :
  upload_zip_folder "115200" abc_ports abc_tool (λ _, "bundle.zip") (λ _ _, Some [])
    None empty_world = (inr false, empty_world) ∧
  upload_zip_folder "115200" abc_ports abc_tool (λ _, "bundle.zip") (λ _ _, Some [])
    (Some BOOT_MODE_ERROR) empty_world = (inr false, empty_world).
Proof.
  split; apply upload_zip_folder_guard; discriminate.
Defined.

(** ** The upload loop *)

Section Loop.

Variable BAUD_RATE : string.
Variable esptool : list event → list string → CompletedProcess.

(** The guard of line 210 skips the entry and touches nothing. *)
Lemma upload_loop_unwanted (device : ESP32) (i : Z) (file_name : ZipInfo)
    (rest : list ZipInfo) (current_address : Z) (w : World) :
  unwanted file_name = true →
  upload_loop BAUD_RATE esptool device i (file_name :: rest) current_address w =
  upload_loop BAUD_RATE esptool device (i + 1) rest current_address w.
Proof.
  unfold unwanted. simpl. destruct (filename file_name) as [name|]; [|done].
  by intros ->.
Qed.

(** A name without a dot: line 219 raises, after the member was opened. *)
Lemma upload_loop_no_dot (device : ESP32) (i : Z) (file_name : ZipInfo)
    (rest : list ZipInfo) (current_address : Z) (w : World) (name : string) :
  filename file_name = Some name → name ≠ "/" → temp_path name = None →
  upload_loop BAUD_RATE esptool device i (file_name :: rest) current_address w =
  (inl ValueError, mkWorld (files w) (log w ++ announce i name)).
Proof.
  intros Hname Hsep Htemp. cbn [upload_loop].
  rewrite Hname, bool_decide_eq_false_2, Htemp by done.
  unfold mbind, M_bind, emit, print, emit, raise, announce. simpl.
  by rewrite <- app_assoc.
Qed.

(** One full iteration on an entry the guard lets through. *)
Lemma upload_loop_wanted (device : ESP32) (i : Z) (file_name : ZipInfo)
    (rest : list ZipInfo) (current_address : Z) (w : World) (name path : string) :
  filename file_name = Some name → name ≠ "/" → temp_path name = Some path →
  upload_loop BAUD_RATE esptool device i (file_name :: rest) current_address w =
  (let before := (log w ++ announce i name ++ [EvZipMemberClose name])%list in
   let args := write_flash_args BAUD_RATE device current_address path in
   let rc := returncode (esptool before args) in
   let size := Z.of_nat (length (member_bytes file_name)) in
   if rc =? 0
   then upload_loop BAUD_RATE esptool device (i + 1) rest
          (((current_address + size) `div` CHUNK_SIZE + 1) * CHUNK_SIZE)
          (mkWorld (delete path (files w)) (before ++ [EvSubprocessRun args]))
   else (inl (CalledProcessError rc args),
         mkWorld (<[path := member_bytes file_name]> (files w))
                 (before ++ [EvSubprocessRun args]))).
Proof.
  intros Hname Hsep Htemp. cbn [upload_loop].
  rewrite Hname, bool_decide_eq_false_2, Htemp by done.
  unfold mbind, M_bind, emit, print, emit, write_file, from_option, mret, M_ret.
  cbn beta iota delta [files log].
  assert (∀ w1,
    (if Py.endswith name ".bin"
     then upload_program BAUD_RATE esptool device current_address path
     else upload_file BAUD_RATE esptool device current_address path) w1 =
    upload_program BAUD_RATE esptool device current_address path w1)
    as -> by (by destruct (Py.endswith name ".bin")).
  rewrite upload_program_eq. cbn beta iota zeta delta [files log].
  unfold announce. rewrite <- !app_assoc. cbn [app].
  destruct (_ =? 0); [|done].
  unfold getsize, remove. cbn beta iota delta [files log]. rewrite !lookup_insert_eq.
  cbn beta iota delta [files log]. rewrite ?lookup_insert_eq.
  by rewrite delete_insert_eq.
Qed.

(** The loop over a list in two parts. *)
Lemma upload_loop_app (device : ESP32) (before rest : list ZipInfo) (i : Z)
    (current_address : Z) (w : World) :
  upload_loop BAUD_RATE esptool device i (before ++ rest) current_address w =
  match upload_loop BAUD_RATE esptool device i before current_address w with
  | (inr a1, w1) =>
      upload_loop BAUD_RATE esptool device (i + Z.of_nat (length before)) rest a1 w1
  | (inl e, w1) => (inl e, w1)
  end.
Proof.
  revert i current_address w.
  induction before as [|file_name before IH]; intros i a w.
  - simpl. unfold mret, M_ret. by rewrite Z.add_0_r.
  - rewrite <- app_comm_cons.
    replace (i + Z.of_nat (length (file_name :: before)))
      with (i + 1 + Z.of_nat (length before)) by (simpl; lia).
    destruct (unwanted file_name) eqn:Hskip.
    { by rewrite !upload_loop_unwanted, IH. }
    unfold unwanted in Hskip.
    destruct (filename file_name) as [name|] eqn:Hname; [|done].
    apply bool_decide_eq_false in Hskip.
    destruct (temp_path name) as [path|] eqn:Hpath.
    + rewrite !(upload_loop_wanted _ _ _ _ _ _ name path) by done.
      cbn zeta. destruct (_ =? 0); [apply IH | done].
    + by rewrite !(upload_loop_no_dot _ _ _ _ _ _ name).
Qed.

End Loop.

(** C3, as the code has it.  Take an entry the loop reaches after it went
    through the entries [before], and the exit status [rc] of its write.
    When [rc] is not zero the loop stops there with [CalledProcessError]: the
    failed process is the last thing in the log, and the temporary file of
    the entry is still on disk with the bytes of the member.  Only when [rc]
    is zero is the file removed, before the loop goes on to the next entry. *)
Theorem failed_write_keeps_temp_file
    (BAUD_RATE : string) (esptool : list event → list string → CompletedProcess)
    (device : ESP32) (i : Z) (before rest : list ZipInfo) (file_name : ZipInfo)
    (current_address a1 : Z) (w w1 : World) (name path : string) :
  upload_loop BAUD_RATE esptool device i before current_address w = (inr a1, w1) →
  filename file_name = Some name → name ≠ "/" → temp_path name = Some path →
  let j := i + Z.of_nat (length before) in
  let started := (log w1 ++ announce j name ++ [EvZipMemberClose name])%list in
  let args := write_flash_args BAUD_RATE device a1 path in
  let rc := returncode (esptool started args) in
  let size := Z.of_nat (length (member_bytes file_name)) in
  (rc ≠ 0 →
     upload_loop BAUD_RATE esptool device i (before ++ file_name :: rest) current_address w =
       (inl (CalledProcessError rc args),
        mkWorld (<[path := member_bytes file_name]> (files w1))
                (started ++ [EvSubprocessRun args])) ∧
     <[path := member_bytes file_name]> (files w1) !! path = Some (member_bytes file_name)) ∧
  (rc = 0 →
     upload_loop BAUD_RATE esptool device i (before ++ file_name :: rest) current_address w =
       upload_loop BAUD_RATE esptool device (j + 1) rest
         (((a1 + size) `div` CHUNK_SIZE + 1) * CHUNK_SIZE)
         (mkWorld (delete path (files w1)) (started ++ [EvSubprocessRun args])) ∧
     delete path (files w1) !! path = None).
Proof.
  intros Hbefore Hname Hsep Hpath j started args rc size.
  assert (Hstep := upload_loop_wanted BAUD_RATE esptool device j file_name rest a1 w1
                     name path Hname Hsep Hpath).
  cbn zeta in Hstep. fold started args rc size in Hstep.
  split; intros Hrc.
  - split; [|apply lookup_insert_eq].
    rewrite upload_loop_app, Hbefore. fold j. rewrite Hstep.
    by rewrite (proj2 (Z.eqb_neq rc 0)).
  - split; [|apply lookup_delete_eq].
    rewrite upload_loop_app, Hbefore. fold j. rewrite Hstep.
    by rewrite (proj2 (Z.eqb_eq rc 0)).
Qed.

Lemma failed_write_keeps_temp_file_witness :
  upload_loop "115200" tool_failing_write (mkESP32 "COM3") 1 ([slash] ++ [b_bin; a_txt]) 0
    empty_world =
  (inl (CalledProcessError 2 (write_flash_args "115200" (mkESP32 "COM3") 0 "temp.bin")),
   mkWorld (<["temp.bin" := member_bytes b_bin]> ∅)
     [EvZipMemberOpen "b.bin"; EvPrint "  (2) - b.bin"; EvZipMemberClose "b.bin";
      EvSubprocessRun (write_flash_args "115200" (mkESP32 "COM3") 0 "temp.bin")]) ∧
  (<["temp.bin" := member_bytes b_bin]> ∅ : gmap string (list byte)) !! "temp.bin" =
    Some (member_bytes b_bin).
Proof.
  refine (proj1 (failed_write_keeps_temp_file "115200" tool_failing_write (mkESP32 "COM3") 1
                   [slash] [a_txt] b_bin 0 0 empty_world empty_world "b.bin" "temp.bin"
                   _ _ _ _) _).
  - reflexivity.
  - reflexivity.
  - discriminate.
  - reflexivity.
  - vm_compute. discriminate.
Defined.

(** C3 fails as stated: a session whose first write fails ends with
    [CalledProcessError] while [temp.bin] is still there. *)
Lemma failed_session_leaves_temp_file :
  (session tool_failing_write [a_txt; b_bin; slash]).1 =
    inl (CalledProcessError 2 (write_flash_args "115200" (mkESP32 "COM3") 0 "temp.bin")) ∧
  files (session tool_failing_write [a_txt; b_bin; slash]).2 !! "temp.bin" =
    Some (member_bytes b_bin).
Proof. split; vm_compute; reflexivity. Qed.

(** ** The upload order and the addresses *)

Lemma unwanted_slash (file_name : ZipInfo) :
  unwanted file_name = true ↔ filename file_name = None ∨ filename file_name = Some "/".
Proof.
  unfold unwanted. destruct (filename file_name) as [name|].
  - rewrite bool_decide_eq_true. split; [intros ->; by right | by intros [|[= ->]]].
  - split; [by left | done].
Qed.

Lemma plan_from_unwanted (file_name : ZipInfo) (rest : list ZipInfo) (a : Z) :
  unwanted file_name = true →
  plan_from (file_name :: rest) a = plan_from rest a.
Proof.
  unfold unwanted. simpl. destruct (filename file_name) as [name|]; [|done].
  by intros ->.
Qed.

Lemma plan_from_insert_unwanted (file_name : ZipInfo) (before after : list ZipInfo) (a : Z) :
  unwanted file_name = true →
  plan_from (before ++ file_name :: after) a = plan_from (before ++ after) a.
Proof.
  intros Hskip. revert a. induction before as [|x before IH]; intros a.
  - by apply plan_from_unwanted.
  - simpl. destruct (filename x) as [name|]; [|apply IH].
    case_bool_decide; [apply IH|].
    destruct (temp_path name); [|done]. by rewrite IH.
Qed.

(** [select] keeps the entries of one kind, in their order, and raises only
    on a name that is [None]. *)
Lemma select_error (want : bool) (l : list ZipInfo) (e : exn) :
  select want l = inl e → e = AttributeError.
Proof.
  induction l as [|x l IH]; simpl; [done|].
  destruct (filename x); [|congruence].
  destruct (select want l); [|done]. intros [= <-]. by apply IH.
Qed.

Lemma select_app (want : bool) (l1 l2 : list ZipInfo) :
  select want (l1 ++ l2) =
  match select want l1 with
  | inl e => inl e
  | inr chosen1 =>
      match select want l2 with
      | inl e => inl AttributeError
      | inr chosen2 => inr (chosen1 ++ chosen2)%list
      end
  end.
Proof.
  induction l1 as [|x l1 IH]; simpl.
  - destruct (select want l2) as [e|] eqn:H; [|done].
    by rewrite (select_error _ _ _ H).
  - destruct (filename x) as [name|]; [|done]. rewrite IH.
    destruct (select want l1); [done|].
    destruct (select want l2); [done|]. by destruct (Bool.eqb _ _).
Qed.

Lemma select_filter (want : bool) (l chosen : list ZipInfo) :
  select want l = inr chosen →
  chosen = List.filter (λ x, Bool.eqb (is_image x) want) l.
Proof.
  revert chosen. induction l as [|x l IH]; intros chosen; simpl.
  - by intros [= <-].
  - unfold is_image at 1. destruct (filename x) as [name|]; [|done].
    destruct (select want l) as [|chosen']; [done|].
    intros [= <-]. by rewrite (IH chosen').
Qed.

Lemma select_total (want : bool) (l : list ZipInfo) :
  Forall (λ x, filename x ≠ None) l → ∃ chosen, select want l = inr chosen.
Proof.
  induction 1 as [|x l Hx _ [chosen IH]]; simpl; [by eexists|].
  destruct (filename x); [|done]. rewrite IH. by eexists.
Qed.

Lemma plan_insert_slash (file_name : ZipInfo) (before after : list ZipInfo) :
  filename file_name = Some "/" →
  plan (before ++ file_name :: after) = plan (before ++ after).
Proof.
  intros Hname. unfold plan, file_list. rewrite !select_app. simpl. rewrite Hname.
  change (Py.endswith "/" ".bin") with false. simpl.
  destruct (select true before) as [|ib]; [done|].
  destruct (select true after) as [|ia]; [done|].
  destruct (select false before) as [|ob]; [done|].
  destruct (select false after) as [|oa]; [done|].
  rewrite !app_assoc. apply plan_from_insert_unwanted.
  unfold unwanted. by rewrite Hname.
Qed.

(** C4, as the code has it.  An entry whose name is [None] or ["/"] is
    skipped by the loop: the iteration changes neither the address nor the
    world, so the entry is never opened, written to disk or uploaded, and the
    entries after it get the addresses they would get without it.  For a name
    ["/"] the whole plan is the plan of the archive without the entry. *)
Theorem unwanted_entry_is_skipped
    (BAUD_RATE : string) (esptool : list event → list string → CompletedProcess)
    (file_name : ZipInfo) :
  filename file_name = None ∨ filename file_name = Some "/" →
  (∀ device i rest current_address w,
     upload_loop BAUD_RATE esptool device i (file_name :: rest) current_address w =
     upload_loop BAUD_RATE esptool device (i + 1) rest current_address w) ∧
  (∀ before after current_address,
     plan_from (before ++ file_name :: after) current_address =
     plan_from (before ++ after) current_address) ∧
  (filename file_name = Some "/" →
   ∀ before after, plan (before ++ file_name :: after) = plan (before ++ after)).
Proof.
  intros Hname%unwanted_slash. repeat split.
  - intros. by apply upload_loop_unwanted.
  - intros. by apply plan_from_insert_unwanted.
  - intros Hslash before after. by apply plan_insert_slash.
Qed.

Lemma unwanted_entry_is_skipped_witness :
  plan ([a_txt; b_bin] ++ slash :: []) = plan ([a_txt; b_bin] ++ []).
Proof.
  refine (proj2 (proj2 (unwanted_entry_is_skipped "115200" tool_ok slash _)) _ [a_txt; b_bin] []).
  - right. reflexivity.
  - reflexivity.
Defined.

(** C4 fails as stated for the empty name: the guard lets it through, the
    member is opened, and line 219 raises [ValueError]; the entry after it is
    never uploaded, where a plan without the nameless entry uploads it. *)
Lemma empty_name_is_not_skipped :
  unwanted nameless = false ∧
  session tool_ok [nameless; a_txt] =
    (inl ValueError,
     mkWorld ∅
       [EvAskOpenFilename; EvStatusConfig "Uploading files... (this may take a while)";
        EvUpdate; EvComports;
        EvSubprocessRun ["esptool"; "--port"; "COM3"; "--baud"; "115200"; "flash_id"];
        EvSubprocessRun ["esptool"; "--port"; "COM3"; "--baud"; "115200"; "erase_flash"];
        EvZipFileOpen "bundle.zip";
        EvPrint "Uploading ZIP file contents... (2 files)";
        EvZipMemberOpen ""; EvPrint "  (1) - ";
        EvZipFileClose "bundle.zip"]) ∧
  plan [nameless; a_txt] = inl ValueError ∧
  plan [a_txt] = inr [(a_txt, 0)] ∧
  (session tool_ok [a_txt]).1 = inr true.
Proof. repeat split; vm_compute; reflexivity. Qed.

(** *** Filtering twice *)

Lemma filter_filter_and {A} (f g : A → bool) (l : list A) :
  List.filter f (List.filter g l) = List.filter (λ x, g x && f x) l.
Proof.
  induction l as [|x l IH]; simpl; [done|].
  destruct (g x); simpl; [|done]. destruct (f x); by rewrite IH.
Qed.

Lemma filter_none {A} (f : A → bool) (l : list A) :
  (∀ x, f x = false) → List.filter f l = [].
Proof. intros Hf. induction l as [|x l IH]; simpl; [done|]. by rewrite Hf. Qed.

Lemma images_then_others (images others original : list ZipInfo) :
  Forall (λ x, is_image x = true) images →
  Forall (λ x, is_image x = false) others →
  images = List.filter is_image original →
  others = List.filter (λ x, negb (is_image x)) original →
  stable_partition (images ++ others) original.
Proof.
  intros Himg Hoth Hi Ho. repeat split.
  - intros i j x y Hx Hy Hxi Hyo.
    apply lookup_app_Some in Hx as [Hx | [Hle Hx]].
    + apply lookup_app_Some in Hy as [Hy | [Hle Hy]].
      * rewrite Forall_lookup in Himg. specialize (Himg _ _ Hy). congruence.
      * apply lookup_lt_Some in Hx. lia.
    + rewrite Forall_lookup in Hoth. specialize (Hoth _ _ Hx). congruence.
  - rewrite List.filter_app, Hi, Ho, !filter_filter_and.
    rewrite (filter_none (λ x, negb (is_image x) && is_image x))
      by (intros x; by destruct (is_image x)).
    rewrite app_nil_r. apply List.filter_ext. intros x. by destruct (is_image x).
  - rewrite List.filter_app, Hi, Ho, !filter_filter_and.
    rewrite (filter_none (λ x, is_image x && negb (is_image x)))
      by (intros x; by destruct (is_image x)).
    simpl. apply List.filter_ext. intros x. by destruct (is_image x).
Qed.

Lemma plan_from_entries (ordered : list ZipInfo) (a : Z) (p : list (ZipInfo * Z)) :
  plan_from ordered a = inr p →
  map fst p = List.filter (λ x, negb (unwanted x)) ordered.
Proof.
  revert a p. induction ordered as [|x ordered IH]; intros a p; simpl.
  - by intros [= <-].
  - unfold unwanted at 1. destruct (filename x) as [name|]; [|apply IH].
    case_bool_decide; [apply IH|]. simpl.
    destruct (temp_path name); [|done].
    destruct (plan_from ordered _) as [|later] eqn:Hlater; [done|].
    intros [= <-]. simpl. by rewrite (IH _ _ Hlater).
Qed.

(** C8.  The order of the upload is a stable partition of the archive.
    Whenever every name is a string the order of lines 203-204 exists; it
    puts every entry whose name ends in [.bin] before every entry whose name
    does not, and keeps the archive's order inside each group.  The entries
    of the plan, the ones the guard does not skip, are ordered the same way. *)
Theorem plan_is_stable_partition (filelist : list ZipInfo) :
  (Forall (λ x, filename x ≠ None) filelist → ∃ ordered, file_list filelist = inr ordered) ∧
  (∀ ordered, file_list filelist = inr ordered → stable_partition ordered filelist) ∧
  (∀ p, plan filelist = inr p →
     stable_partition (map fst p) (List.filter (λ x, negb (unwanted x)) filelist)).
Proof.
  assert (Hkind : ∀ want, Forall (λ x, is_image x = want)
            (List.filter (λ x, Bool.eqb (is_image x) want) filelist)).
  { intros want. apply List.Forall_forall. intros x [_ Hx]%List.filter_In.
    by destruct (is_image x), want. }
  split; [|split].
  - intros Hnamed. unfold file_list.
    destruct (select_total true _ Hnamed) as [images ->].
    destruct (select_total false _ Hnamed) as [others ->]. by eexists.
  - intros ordered. unfold file_list.
    destruct (select true filelist) as [|images] eqn:Hi; [done|].
    destruct (select false filelist) as [|others] eqn:Ho; [done|].
    intros [= <-]. apply select_filter in Hi, Ho. subst.
    apply images_then_others; [apply Hkind | apply Hkind | |];
      apply List.filter_ext; intros x; by destruct (is_image x).
  - intros p. unfold plan, file_list.
    destruct (select true filelist) as [|images] eqn:Hi; [done|].
    destruct (select false filelist) as [|others] eqn:Ho; [done|].
    intros Hp%plan_from_entries. rewrite Hp. apply select_filter in Hi, Ho. subst.
    rewrite List.filter_app. apply images_then_others.
    + apply List.Forall_forall. intros x [Hx _]%List.filter_In.
      revert x Hx. apply List.Forall_forall, Hkind.
    + apply List.Forall_forall. intros x [Hx _]%List.filter_In.
      revert x Hx. apply List.Forall_forall, Hkind.
    + rewrite !filter_filter_and. apply List.filter_ext.
      intros x. by destruct (is_image x), (unwanted x).
    + rewrite !filter_filter_and. apply List.filter_ext.
      intros x. by destruct (is_image x), (unwanted x).
Qed.

Lemma plan_is_stable_partition_witness :
  (∃ ordered, file_list [a_txt; b_bin; slash] = inr ordered) ∧
  stable_partition [b_bin; a_txt; slash] [a_txt; b_bin; slash] ∧
  stable_partition [b_bin; a_txt] [a_txt; b_bin].
Proof.
  destruct (plan_is_stable_partition [a_txt; b_bin; slash]) as (Htotal & Horder & Hplan).
  split; [|split].
  - apply Htotal. repeat constructor; discriminate.
  - apply (Horder [b_bin; a_txt; slash]). reflexivity.
  - apply (Hplan [(b_bin, 0); (a_txt, 8192)]). reflexivity.
Defined.

(** *** Addresses *)

(** The step of line 234 from the end offset [stop] of an entry. *)
Lemma next_address_facts (stop : Z) :
  let next := (stop `div` CHUNK_SIZE + 1) * CHUNK_SIZE in
  next `mod` CHUNK_SIZE = 0 ∧
  stop < next ≤ stop + CHUNK_SIZE ∧
  (stop `mod` CHUNK_SIZE ≠ 0 → next = round_up_to_chunk stop) ∧
  (stop `mod` CHUNK_SIZE = 0 → next = stop + CHUNK_SIZE ∧ round_up_to_chunk stop = stop).
Proof.
  unfold round_up_to_chunk, CHUNK_SIZE. cbn zeta.
  split; [apply Z.mod_mul; lia |].
  pose proof (Z.div_mod stop 4096 ltac:(lia)) as Hstop.
  pose proof (Z.mod_pos_bound stop 4096 ltac:(lia)) as Hbound.
  pose proof (Z.div_mod (- stop) 4096 ltac:(lia)) as Hneg.
  pose proof (Z.mod_pos_bound (- stop) 4096 ltac:(lia)) as Hnegbound.
  repeat split; lia.
Qed.

Lemma plan_from_cons (ordered : list ZipInfo) (a : Z) (x : ZipInfo) (ax : Z)
    (later : list (ZipInfo * Z)) :
  plan_from ordered a = inr ((x, ax) :: later) →
  ax = a ∧
  ∃ rest, plan_from rest
            (((a + Z.of_nat (length (member_bytes x))) `div` CHUNK_SIZE + 1) * CHUNK_SIZE)
          = inr later.
Proof.
  induction ordered as [|y ordered IH]; simpl; [done|].
  destruct (filename y) as [name|]; [|apply IH].
  case_bool_decide; [apply IH|].
  destruct (temp_path name); [|done].
  clear IH. destruct (plan_from ordered _) as [|later'] eqn:Hlater; [done|].
  intros [= -> <- <-]. split; [done | by exists ordered].
Qed.

Lemma plan_from_consecutive (k : nat) (ordered : list ZipInfo) (a : Z)
    (p : list (ZipInfo * Z)) (x y : ZipInfo) (ax ay : Z) :
  plan_from ordered a = inr p →
  p !! k = Some (x, ax) → p !! S k = Some (y, ay) →
  ay = ((ax + Z.of_nat (length (member_bytes x))) `div` CHUNK_SIZE + 1) * CHUNK_SIZE.
Proof.
  revert ordered a p. induction k as [|k IH]; intros ordered a p Hp Hx Hy.
  - destruct p as [|[x' ax'] [|[y' ay'] later]]; simplify_eq/=.
    apply plan_from_cons in Hp as [-> [rest Hrest]].
    by apply plan_from_cons in Hrest as [-> _].
  - destruct p as [|[x' ax'] later]; [done|]. simpl in Hx, Hy.
    apply plan_from_cons in Hp as [-> [rest Hrest]].
    by eapply (IH rest _ later).
Qed.

(** C2, as the code has it.  In every plan the first entry is at address 0,
    and the entry after one that ends at [stop] (its address plus its length)
    is at [(stop // CHUNK_SIZE + 1) * CHUNK_SIZE]: a multiple of the chunk size,
    strictly above [stop] and at most one chunk above it.  That is [stop]
    rounded up when [stop] is not a multiple of the chunk size, and
    [stop + CHUNK_SIZE] when it is. *)
Theorem plan_addresses (filelist : list ZipInfo) (p : list (ZipInfo * Z)) :
  plan filelist = inr p →
  (∀ x ax, p !! 0%nat = Some (x, ax) → ax = 0) ∧
  (∀ k x ax y ay, p !! k = Some (x, ax) → p !! S k = Some (y, ay) →
     let stop := ax + Z.of_nat (length (member_bytes x)) in
     ay = (stop `div` CHUNK_SIZE + 1) * CHUNK_SIZE ∧
     ay `mod` CHUNK_SIZE = 0 ∧
     stop < ay ≤ stop + CHUNK_SIZE ∧
     (stop `mod` CHUNK_SIZE ≠ 0 → ay = round_up_to_chunk stop) ∧
     (stop `mod` CHUNK_SIZE = 0 → ay = stop + CHUNK_SIZE)).
Proof.
  unfold plan. destruct (file_list filelist) as [|ordered]; [done|]. intros Hp. split.
  - intros x ax Hx. destruct p as [|[x' ax'] later]; simplify_eq/=.
    by apply plan_from_cons in Hp as [-> _].
  - intros k x ax y ay Hx Hy.
    pose proof (plan_from_consecutive _ _ _ _ _ _ _ _ Hp Hx Hy) as ->.
    set (stop := ax + Z.of_nat (length (member_bytes x))). destruct (next_address_facts stop) as (Hmod & Hbound & Hup & Hfull).
    repeat split; try done; try lia.
Qed.

Lemma plan_addresses_witness :
  0x2000 = ((0x0 + Z.of_nat (length (member_bytes b_bin))) `div` CHUNK_SIZE + 1) * CHUNK_SIZE ∧
  0x2000 = round_up_to_chunk (0x0 + Z.of_nat (length (member_bytes b_bin))).
Proof.
  destruct (plan_addresses [a_txt; b_bin; slash] [(b_bin, 0x0); (a_txt, 0x2000)] eq_refl)
    as [_ Hnext].
  destruct (Hnext 0%nat b_bin 0x0 a_txt 0x2000 eq_refl eq_refl) as (Heq & _ & _ & Hup & _).
  split; [exact Heq | apply Hup; by vm_compute].
Defined.

(** C2 fails as stated: a first entry of exactly one chunk ends at 0x1000,
    a multiple of the chunk size, and the next entry is at 0x2000. *)
Lemma full_chunk_skips_a_chunk :
  plan [page_bin; a_txt] = inr [(page_bin, 0x0); (a_txt, 0x2000)] ∧
  0x0 + Z.of_nat (length (member_bytes page_bin)) = 0x1000 ∧
  round_up_to_chunk 0x1000 = 0x1000 ∧
  0x2000 ≠ round_up_to_chunk (0x0 + Z.of_nat (length (member_bytes page_bin))).
Proof. repeat split; vm_compute; congruence. Qed.

(** C1, as the code has it.  The bundle [a.txt] (10 bytes), [b.bin] (5000
    bytes), [/]: the plan is [b.bin] at 0x0, then [a.txt] at 0x2000, without
    the [/] entry; and the session on it runs exactly these two writes. *)
Theorem plan_of_example_bundle :
  plan [a_txt; b_bin; slash] = inr [(b_bin, 0x0); (a_txt, 0x2000)] ∧
  session tool_ok [a_txt; b_bin; slash] =
    (inr true,
     mkWorld ∅
       [EvAskOpenFilename; EvStatusConfig "Uploading files... (this may take a while)";
        EvUpdate; EvComports;
        EvSubprocessRun ["esptool"; "--port"; "COM3"; "--baud"; "115200"; "flash_id"];
        EvSubprocessRun ["esptool"; "--port"; "COM3"; "--baud"; "115200"; "erase_flash"];
        EvZipFileOpen "bundle.zip";
        EvPrint "Uploading ZIP file contents... (3 files)";
        EvZipMemberOpen "b.bin"; EvPrint "  (1) - b.bin"; EvZipMemberClose "b.bin";
        EvSubprocessRun ["esptool"; "--port"; "COM3"; "--baud"; "115200"; "write_flash";
                         "--flash_size=detect"; "0x0"; "temp.bin"];
        EvZipMemberOpen "a.txt"; EvPrint "  (2) - a.txt"; EvZipMemberClose "a.txt";
        EvSubprocessRun ["esptool"; "--port"; "COM3"; "--baud"; "115200"; "write_flash";
                         "--flash_size=detect"; "0x2000"; "temp.txt"];
        EvZipFileClose "bundle.zip";
        EvPrint "File uploading complete!";
        EvStatusConfig "Files uploaded successfully!"]).
Proof. split; vm_compute; reflexivity. Qed.

(** C1 fails as stated: [a.txt] is not at 0x1000. *)
Lemma example_bundle_not_at_0x1000 :
  plan [a_txt; b_bin; slash] ≠ inr [(b_bin, 0x0); (a_txt, 0x1000)] ∧
  EvSubprocessRun ["esptool"; "--port"; "COM3"; "--baud"; "115200"; "write_flash";
                   "--flash_size=detect"; "0x1000"; "temp.txt"]
    ∉ log (session tool_ok [a_txt; b_bin; slash]).2.
Proof.
  split.
  - vm_compute. intros [=].
  - intros Hin%list_elem_of_In. vm_compute in Hin.
    repeat (destruct Hin as [Hin | Hin]; [discriminate Hin |]). exact Hin.
Qed.

(** ** The loop against the plan *)

Section Following.

Variable BAUD_RATE : string.
Variable esptool : list event → list string → CompletedProcess.

Lemma runs_app (l1 l2 : list event) : runs (l1 ++ l2) = (runs l1 ++ runs l2)%list.
Proof. apply omap_app. Qed.


Variable comports : list event → list (string * string * string).
Variable askopenfilename : list event → string.
Variable zip_filelist : list event → string → option (list ZipInfo).

Lemma clear_flash_eq (self : ESP32) (w : World) :
  clear_flash BAUD_RATE esptool self w =
  (let rc := returncode (esptool (log w) (erase_flash_args BAUD_RATE self)) in
   if rc =? 0 then inr tt else inl (CalledProcessError rc (erase_flash_args BAUD_RATE self)),
   mkWorld (files w) (log w ++ [EvSubprocessRun (erase_flash_args BAUD_RATE self)])).
Proof.
  unfold clear_flash, subprocess_run, erase_flash_args, mbind, M_bind. simpl.
  by destruct (_ =? 0).
Qed.


End Following.

(** * Further properties of the program *)

(** ** What a probe and the resolver can answer *)

Lemma utf8_valid_ascii (bs : list byte) :
  ascii_only bs → Py.utf8_valid bs = true.
Proof.
  induction 1 as [|b bs Hb _ IH]; [done|].
  cbn [Py.utf8_valid]. unfold Py.between. cbn zeta.
  rewrite (proj2 (N.leb_le 0 _)) by lia.
  rewrite (proj2 (N.leb_le _ 127)) by lia. exact IH.
Qed.

Section Answers.

Variable BAUD_RATE : string.
Variable esptool : list event → list string → CompletedProcess.

Lemma check_status_range (self : ESP32) (w : World) (status : Z) :
  (check_status BAUD_RATE esptool self w).1 = inr status →
  status = DEVICE_FOUND ∨ status = BOOT_MODE_ERROR ∨ status = NO_DEVICE_FOUND.
Proof.
  rewrite check_status_eq. simpl. destruct (Py.decode _); [|done].
  intros [= <-]. repeat case_match; auto.
Qed.

Lemma get_device_loop_answer (ports : list (string * string * string)) (w w' : World)
    (found : option ESP32) (status : Z) :
  get_device_loop BAUD_RATE esptool ports w = (inr (found, status), w') →
  (status = DEVICE_FOUND ∨ status = BOOT_MODE_ERROR ∨ status = NO_DEVICE_FOUND) ∧
  (is_Some found ↔ status = DEVICE_FOUND) ∧
  (∀ device, found = Some device → ∃ p, p ∈ ports ∧ device = mkESP32 p.1.1).
Proof.
  revert w. induction ports as [|p ports IH]; intros w; simpl.
  - intros [= <- <- <-]. split; [auto|]. split; [|done].
    split; [by intros [? ?] | done].
  - unfold mbind, M_bind at 1.
    destruct (check_status BAUD_RATE esptool (mkESP32 p.1.1) w) as [[e|st] w1] eqn:Hp; [done|].
    destruct (st =? DEVICE_FOUND) eqn:Hfound.
    + intros [= <- <- <-]. apply Z.eqb_eq in Hfound. split; [auto|]. split.
      * split; [done | by eexists].
      * intros device [= <-]. exists p. split; [apply list_elem_of_here | done].
    + destruct (st =? BOOT_MODE_ERROR) eqn:Hboot.
      * intros [= <- <- <-]. apply Z.eqb_eq in Hboot. apply Z.eqb_neq in Hfound.
        split; [auto|]. split; [|done]. split; [by intros [? ?] | done].
      * intros Hrest. destruct (IH _ Hrest) as (Hrange & Hsome & Hport).
        split; [done|]. split; [done|].
        intros device Hdev. destruct (Hport device Hdev) as (q & Hq & ->).
        exists q. split; [by apply list_elem_of_further | done].
Qed.

Lemma get_device_loop_probes (ports : list (string * string * string)) (w w' : World)
    (r : exn + option ESP32 * Z) :
  get_device_loop BAUD_RATE esptool ports w = (r, w') →
  files w' = files w ∧
  ∃ k, (k ≤ length ports)%nat ∧
       log w' = (log w ++ map (probe_event BAUD_RATE) (take k ports))%list.
Proof.
  revert w. induction ports as [|p ports IH]; intros w; simpl.
  - intros [= <- <-]. split; [done|]. exists 0%nat. split; [done | by rewrite app_nil_r].
  - unfold mbind, M_bind at 1.
    pose proof (check_status_log BAUD_RATE esptool (mkESP32 p.1.1) w) as Hw1.
    destruct (check_status BAUD_RATE esptool (mkESP32 p.1.1) w) as [[e|st] w1]; simpl in Hw1;
      subst w1.
    { intros [= <- <-]. split; [done|]. exists 1%nat. split; [lia | done]. }
    destruct (st =? DEVICE_FOUND).
    { intros [= <- <-]. split; [done|]. exists 1%nat. split; [lia | done]. }
    destruct (st =? BOOT_MODE_ERROR).
    { intros [= <- <-]. split; [done|]. exists 1%nat. split; [lia | done]. }
    intros Hrest. destruct (IH _ Hrest) as (Hfiles & k & Hk & Hlog).
    split; [exact Hfiles|]. exists (S k). split; [lia|].
    rewrite Hlog. simpl. by rewrite <- app_assoc.
Qed.

End Answers.

Lemma get_device_keeps_files
    (BAUD_RATE : string) (comports : list event → list (string * string * string))
    (esptool : list event → list string → CompletedProcess) (w : World) :
  files (get_device BAUD_RATE comports esptool w).2 = files w.
Proof.
  rewrite get_device_eq.
  destruct (get_device_loop BAUD_RATE esptool (comports (log w))
              (mkWorld (files w) (log w ++ [EvComports]))) as [r w'] eqn:Hloop.
  by destruct (get_device_loop_probes _ _ _ _ _ _ Hloop) as (Hfiles & _).
Qed.

(** X1.  Whatever [get_device] answers, the status is one of the three
    constants, a device comes with it exactly when the status is
    [DEVICE_FOUND], and that device sits on one of the enumerated ports. *)
Theorem get_device_answer
    (BAUD_RATE : string) (comports : list event → list (string * string * string))
    (esptool : list event → list string → CompletedProcess)
    (w w' : World) (found : option ESP32) (status : Z) :
  get_device BAUD_RATE comports esptool w = (inr (found, status), w') →
  (status = DEVICE_FOUND ∨ status = BOOT_MODE_ERROR ∨ status = NO_DEVICE_FOUND) ∧
  (is_Some found ↔ status = DEVICE_FOUND) ∧
  (∀ device, found = Some device →
     ∃ p, p ∈ comports (log w) ∧ device = mkESP32 p.1.1).
Proof. rewrite get_device_eq. apply get_device_loop_answer. Qed.

Lemma get_device_answer_witness :
  ∃ p, p ∈ [port_info "A"; port_info "C"] ∧ mkESP32 "C" = mkESP32 p.1.1.
Proof.
  refine (proj2 (proj2 (get_device_answer "115200" (λ _, [port_info "A"; port_info "C"])
                          abc_tool empty_world _ (Some (mkESP32 "C")) DEVICE_FOUND _))
            (mkESP32 "C") eq_refl).
  vm_compute. reflexivity.
Defined.

(** X2.  [get_device] never touches the local files, and all it runs are
    [flash_id] probes of a leading part of the enumerated ports, each port
    once and in the order of the enumeration; this holds for every outcome,
    an exception included. *)
Theorem get_device_only_probes
    (BAUD_RATE : string) (comports : list event → list (string * string * string))
    (esptool : list event → list string → CompletedProcess) (w : World) :
  files (get_device BAUD_RATE comports esptool w).2 = files w ∧
  ∃ k, (k ≤ length (comports (log w)))%nat ∧
       log (get_device BAUD_RATE comports esptool w).2 =
       (log w ++ EvComports :: map (probe_event BAUD_RATE) (take k (comports (log w))))%list.
Proof.
  rewrite get_device_eq.
  destruct (get_device_loop BAUD_RATE esptool (comports (log w))
              (mkWorld (files w) (log w ++ [EvComports]))) as [r w'] eqn:Hloop.
  destruct (get_device_loop_probes _ _ _ _ _ _ Hloop) as (Hfiles & k & Hk & Hlog).
  simpl in *. split; [done|]. exists k. split; [done|].
  by rewrite Hlog, <- app_assoc.
Qed.

(** X3.  A port whose answer is not valid UTF-8, met before any port gave a
    definitive answer, makes [get_device] raise [UnicodeDecodeError]; the
    ports after it are not probed. *)
Theorem get_device_undecodable
    (BAUD_RATE : string) (comports : list event → list (string * string * string))
    (esptool : list event → list string → CompletedProcess)
    (w w1 : World) (before after : list (string * string * string))
    (p : string * string * string) :
  all_miss BAUD_RATE esptool (mkWorld (files w) (log w ++ [EvComports])) before w1 →
  comports (log w) = (before ++ p :: after)%list →
  Py.decode (stdout (esptool (log w1) (flash_id_args BAUD_RATE (mkESP32 p.1.1)))) = None →
  get_device BAUD_RATE comports esptool w =
    (inl UnicodeDecodeError,
     mkWorld (files w)
       (log w ++ [EvComports] ++ map (probe_event BAUD_RATE) (before ++ [p]))).
Proof.
  intros Hmiss Hports Hbad. destruct (all_miss_world _ _ _ _ _ Hmiss) as [Hf Hl].
  simpl in *. rewrite get_device_eq, Hports.
  rewrite (get_device_loop_miss _ _ _ _ _ _ Hmiss). simpl.
  unfold mbind, M_bind at 1. rewrite check_status_eq, Hbad.
  by rewrite Hf, Hl, map_app, <- !app_assoc.
Qed.

Lemma get_device_undecodable_witness :
  get_device "115200" abc_ports tool_garbled empty_world =
  (inl UnicodeDecodeError,
   mkWorld ∅ [EvComports;
              EvSubprocessRun ["esptool"; "--port"; "A"; "--baud"; "115200"; "flash_id"];
              EvSubprocessRun ["esptool"; "--port"; "B"; "--baud"; "115200"; "flash_id"]]).
Proof.
  refine (get_device_undecodable "115200" abc_ports tool_garbled empty_world _
            [port_info "A"] [port_info "C"] (port_info "B") _ _ _).
  - eapply all_miss_cons; [vm_compute; reflexivity | apply all_miss_nil].
  - reflexivity.
  - vm_compute. reflexivity.
Defined.

(** X4.  When the tool prints only ASCII on stdout the probe cannot raise:
    it answers one of the three statuses. *)
Theorem check_status_ascii
    (BAUD_RATE : string) (esptool : list event → list string → CompletedProcess)
    (self : ESP32) (w : World) :
  ascii_only (stdout (esptool (log w) (flash_id_args BAUD_RATE self))) →
  ∃ status, (check_status BAUD_RATE esptool self w).1 = inr status ∧
            (status = DEVICE_FOUND ∨ status = BOOT_MODE_ERROR ∨ status = NO_DEVICE_FOUND).
Proof.
  intros Hascii%utf8_valid_ascii.
  destruct (check_status BAUD_RATE esptool self w).1 as [e|status] eqn:Hstatus.
  - rewrite check_status_eq in Hstatus. unfold Py.decode in Hstatus.
    by rewrite Hascii in Hstatus.
  - exists status. split; [done|]. by eapply check_status_range.
Qed.

Lemma check_status_ascii_witness :
  ∃ status,
    (check_status "115200" (tool_saying 1 "Detecting chip type... ESP32" "") (mkESP32 "COM3")
       empty_world).1 = inr status ∧
    (status = DEVICE_FOUND ∨ status = BOOT_MODE_ERROR ∨ status = NO_DEVICE_FOUND).
Proof.
  apply check_status_ascii. vm_compute. repeat constructor.
Defined.

(** ** The poller *)

Section Polling.

Variable BAUD_RATE : string.
Variable comports : list event → list (string * string * string).
Variable esptool : list event → list string → CompletedProcess.

(** One poll: the answer of [get_device], shown on the label. *)
Lemma task_eq (w : World) :
  task BAUD_RATE comports esptool w =
  match get_device BAUD_RATE comports esptool w with
  | (inl e, w1) => (inl e, w1)
  | (inr (found, status), w1) =>
      (inr (status, negb (status =? DEVICE_FOUND)),
       mkWorld (files w1) (log w1 ++ [EvStatusConfig (status_text status)]))
  end.
Proof.
  unfold task, mbind, M_bind at 1.
  destruct (get_device BAUD_RATE comports esptool w) as [[e|[found status]] w1] eqn:Hget;
    [done|].
  rewrite get_device_eq in Hget.
  destruct (get_device_loop_answer _ _ _ _ _ _ _ Hget) as (Hrange & _). simpl.
  unfold status_text.
  destruct Hrange as [-> | [-> | ->]]; reflexivity.
Qed.

Variable askopenfilename : list event → string.
Variable zip_filelist : list event → string → option (list ZipInfo).


End Polling.

(** X5.  One poll stores the status [get_device] answers, shows the text of
    that status on the label as the last thing it does, leaves the local
    files alone, and schedules itself again exactly when the status is not
    [DEVICE_FOUND]: after a poll that finds the device no further poll is
    scheduled. *)
Theorem task_shows_status
    (BAUD_RATE : string) (comports : list event → list (string * string * string))
    (esptool : list event → list string → CompletedProcess)
    (w w' : World) (status : Z) (again : bool) :
  task BAUD_RATE comports esptool w = (inr (status, again), w') →
  (∃ found w1, get_device BAUD_RATE comports esptool w = (inr (found, status), w1) ∧
               log w' = (log w1 ++ [EvStatusConfig (status_text status)])%list) ∧
  again = negb (status =? DEVICE_FOUND) ∧
  files w' = files w.
Proof.
  rewrite task_eq.
  pose proof (get_device_keeps_files BAUD_RATE comports esptool w) as Hfiles.
  destruct (get_device BAUD_RATE comports esptool w) as [[e|[found st]] w1]; [done|].
  intros [= <- <- <-]. simpl in *. split; [by exists found, w1 | done].
Qed.

Lemma task_shows_status_witness :
  (∃ found w1, get_device "115200" abc_ports abc_tool empty_world =
                 (inr (found, BOOT_MODE_ERROR), w1) ∧
               [EvComports;
                EvSubprocessRun ["esptool"; "--port"; "A"; "--baud"; "115200"; "flash_id"];
                EvSubprocessRun ["esptool"; "--port"; "B"; "--baud"; "115200"; "flash_id"];
                EvStatusConfig BOOT_MODE_ERROR_OUTPUT] =
               (log w1 ++ [EvStatusConfig (status_text BOOT_MODE_ERROR)])%list) ∧
  true = negb (BOOT_MODE_ERROR =? DEVICE_FOUND) ∧
  (∅ : gmap string (list byte)) = ∅.
Proof.
  refine (task_shows_status "115200" abc_ports abc_tool empty_world
            (mkWorld ∅ [EvComports;
                EvSubprocessRun ["esptool"; "--port"; "A"; "--baud"; "115200"; "flash_id"];
                EvSubprocessRun ["esptool"; "--port"; "B"; "--baud"; "115200"; "flash_id"];
                EvStatusConfig BOOT_MODE_ERROR_OUTPUT])
            BOOT_MODE_ERROR true _).
  vm_compute. reflexivity.
Defined.



(** ** The session, branch by branch *)

Section Session.

Variable BAUD_RATE : string.
Variable comports : list event → list (string * string * string).
Variable esptool : list event → list string → CompletedProcess.
Variable askopenfilename : list event → string.
Variable zip_filelist : list event → string → option (list ZipInfo).

(** [upload_zip_folder] past its guard, as one case analysis. *)
Lemma upload_zip_folder_eq (w : World) :
  upload_zip_folder BAUD_RATE comports esptool askopenfilename zip_filelist
    (Some DEVICE_FOUND) w =
  match get_device BAUD_RATE comports esptool
          (mkWorld (files w)
             (log w ++ [EvAskOpenFilename;
                        EvStatusConfig "Uploading files... (this may take a while)";
                        EvUpdate]))
  with
  | (inl e, w1) => (inl e, w1)
  | (inr (None, _), w1) => (inl (NameError "task"), w1)
  | (inr (Some device, _), w1) =>
      let erase := erase_flash_args BAUD_RATE device in
      let rc := returncode (esptool (log w1) erase) in
      let w2 := mkWorld (files w1) (log w1 ++ [EvSubprocessRun erase]) in
      let path := askopenfilename (log w) in
      if rc =? 0 then
        match zip_filelist (log w2) path with
        | None => (inl (BadZipFile path), w2)
        | Some filelist =>
            match file_list filelist with
            | inl e =>
                (inl e, mkWorld (files w2) (log w2 ++ [EvZipFileOpen path; EvZipFileClose path]))
            | inr ordered =>
                match upload_loop BAUD_RATE esptool device 1 ordered 0
                        (mkWorld (files w2)
                           (log w2 ++
                            [EvZipFileOpen path;
                             EvPrint ("Uploading ZIP file contents... (" ++
                                      Py.str (Z.of_nat (length ordered)) ++ " files)")]))
                with
                | (inl e, w3) => (inl e, mkWorld (files w3) (log w3 ++ [EvZipFileClose path]))
                | (inr _, w3) =>
                    (inr true,
                     mkWorld (files w3)
                       (log w3 ++ [EvZipFileClose path; EvPrint "File uploading complete!";
                                   EvStatusConfig "Files uploaded successfully!"]))
                end
            end
        end
      else (inl (CalledProcessError rc erase), w2)
  end.
Proof.
  unfold upload_zip_folder. rewrite bool_decide_eq_true_2 by done. cbn [negb].
  unfold mbind, M_bind at 1 2 3 4. unfold emit. cbn [files log].
  rewrite <- !app_assoc. cbn [app].
  destruct (get_device _ _ _ _) as [[e|[[device|] status]] w1]; [done | | done].
  cbn [fst]. unfold mbind, M_bind at 1. rewrite clear_flash_eq. cbn zeta.
  destruct (_ =? 0); [|done].
  unfold mbind, M_bind at 1. unfold with_ZipFile at 1. cbn [files log].
  destruct (zip_filelist _ _) as [filelist|]; [|done].
  unfold mbind, M_bind, lift, print, emit, mret, M_ret. cbn beta iota delta [files log].
  destruct (file_list filelist) as [e|ordered].
  - cbn [files log]. by rewrite <- !app_assoc.
  - cbn beta iota delta [files log]. rewrite <- !app_assoc. cbn [app].
    destruct (upload_loop _ _ _ _ _ _ _) as [[e|a] w3]; [done|].
    cbn [files log]. by rewrite <- !app_assoc.
Qed.

End Session.

(** X7.  When the guard passes but the device is not resolved again (it was
    unplugged, or is now in the wrong boot mode), [upload_zip_folder] does not
    return [False]: line 191 names [task], which is not in scope, and the call
    ends with [NameError].  Nothing was erased or written: the world is the one
    [get_device] left. *)
Theorem upload_without_device_raises
    (BAUD_RATE : string) (comports : list event → list (string * string * string))
    (esptool : list event → list string → CompletedProcess)
    (askopenfilename : list event → string)
    (zip_filelist : list event → string → option (list ZipInfo))
    (w w1 : World) (status : Z) :
  get_device BAUD_RATE comports esptool
    (mkWorld (files w)
       (log w ++ [EvAskOpenFilename;
                  EvStatusConfig "Uploading files... (this may take a while)";
                  EvUpdate])) = (inr (None, status), w1) →
  upload_zip_folder BAUD_RATE comports esptool askopenfilename zip_filelist
    (Some DEVICE_FOUND) w = (inl (NameError "task"), w1) ∧
  files w1 = files w.
Proof.
  intros Hget. rewrite upload_zip_folder_eq, Hget. split; [done|].
  pose proof (get_device_keeps_files BAUD_RATE comports esptool
                (mkWorld (files w)
                   (log w ++ [EvAskOpenFilename;
                              EvStatusConfig "Uploading files... (this may take a while)";
                              EvUpdate]))) as Hfiles.
  by rewrite Hget in Hfiles.
Qed.

Lemma upload_without_device_raises_witness :
  upload_zip_folder "115200" abc_ports abc_tool (λ _, "bundle.zip") (bundle [a_txt])
    (Some DEVICE_FOUND) empty_world =
  (inl (NameError "task"),
   mkWorld ∅
     [EvAskOpenFilename; EvStatusConfig "Uploading files... (this may take a while)";
      EvUpdate; EvComports;
      EvSubprocessRun ["esptool"; "--port"; "A"; "--baud"; "115200"; "flash_id"];
      EvSubprocessRun ["esptool"; "--port"; "B"; "--baud"; "115200"; "flash_id"]]) ∧
  (∅ : gmap string (list byte)) = ∅.
Proof.
  refine (upload_without_device_raises "115200" abc_ports abc_tool (λ _, "bundle.zip")
            (bundle [a_txt]) empty_world _ BOOT_MODE_ERROR _).
  vm_compute. reflexivity.
Defined.

(** X8.  When [erase_flash] exits with a nonzero status the session ends
    there with [CalledProcessError]: the erase is the last thing in the log,
    the archive is never opened and nothing is written. *)
Theorem failed_erase_stops_session
    (BAUD_RATE : string) (comports : list event → list (string * string * string))
    (esptool : list event → list string → CompletedProcess)
    (askopenfilename : list event → string)
    (zip_filelist : list event → string → option (list ZipInfo))
    (w w1 : World) (device : ESP32) (status : Z) :
  get_device BAUD_RATE comports esptool
    (mkWorld (files w)
       (log w ++ [EvAskOpenFilename;
                  EvStatusConfig "Uploading files... (this may take a while)";
                  EvUpdate])) = (inr (Some device, status), w1) →
  returncode (esptool (log w1) (erase_flash_args BAUD_RATE device)) ≠ 0 →
  upload_zip_folder BAUD_RATE comports esptool askopenfilename zip_filelist
    (Some DEVICE_FOUND) w =
  (inl (CalledProcessError
          (returncode (esptool (log w1) (erase_flash_args BAUD_RATE device)))
          (erase_flash_args BAUD_RATE device)),
   mkWorld (files w1) (log w1 ++ [EvSubprocessRun (erase_flash_args BAUD_RATE device)])).
Proof.
  intros Hget Hrc. rewrite upload_zip_folder_eq, Hget. cbn zeta.
  by rewrite (proj2 (Z.eqb_neq _ 0) Hrc).
Qed.

Lemma failed_erase_stops_session_witness :
  session tool_failing_erase [a_txt; b_bin] =
  (inl (CalledProcessError 1 ["esptool"; "--port"; "COM3"; "--baud"; "115200"; "erase_flash"]),
   mkWorld ∅ (resolved_log ++ [erase_event])).
Proof.
  refine (failed_erase_stops_session "115200" (λ _, [port_info "COM3"]) tool_failing_erase
            (λ _, "bundle.zip") (bundle [a_txt; b_bin]) empty_world (mkWorld ∅ resolved_log)
            (mkESP32 "COM3") DEVICE_FOUND _ _).
  - vm_compute. reflexivity.
  - vm_compute. discriminate.
Defined.



(** ** Entries the loop cannot name, and archives with nothing to upload *)

Lemma rindex_none (s sub : string) :
  Py.rindex s sub = None ↔ Py.contains sub s = false.
Proof.
  induction s as [|c s IH]; simpl.
  - rewrite orb_false_r. by destruct (Py.startswith sub "").
  - destruct (Py.rindex s sub) as [i|].
    + destruct IH as [_ IH]. split; [done|]. intros [_ H]%orb_false_elim.
      by specialize (IH H).
    + rewrite (proj1 IH eq_refl), orb_false_r. by destruct (Py.startswith sub _).
Qed.

Lemma temp_path_none (name : string) :
  temp_path name = None ↔ ¬ occurs_in "." name.
Proof.
  rewrite <- contains_false, <- rindex_none. unfold temp_path.
  by destruct (Py.rindex name ".").
Qed.

Lemma slice_from_append (stem rest : string) :
  Py.slice_from (String.length stem) (stem ++ rest) = rest.
Proof. induction stem as [|c stem IH]; simpl; [by destruct rest | done]. Qed.

Lemma rindex_dot (stem ext : string) :
  Py.rindex ext "." = None →
  Py.rindex (stem ++ "." ++ ext) "." = Some (String.length stem).
Proof.
  intros Hext. induction stem as [|c stem IH].
  - change (Py.rindex ("" ++ "." ++ ext) ".")
      with (match Py.rindex ext "." with
            | Some i => Some (S i)
            | None => if Py.startswith "." (String "." ext) then Some O else None
            end).
    by rewrite Hext.
  - change (Py.rindex ((String c stem) ++ "." ++ ext) ".")
      with (match Py.rindex (stem ++ "." ++ ext) "." with
            | Some i => Some (S i)
            | None => if Py.startswith "." (String c (stem ++ "." ++ ext)) then Some O else None
            end).
    by rewrite IH.
Qed.

Section Unnamed.

Variable BAUD_RATE : string.
Variable esptool : list event → list string → CompletedProcess.

Lemma upload_loop_all_unwanted (device : ESP32) (file_list : list ZipInfo) (i : Z)
    (current_address : Z) (w : World) :
  Forall (λ x, unwanted x = true) file_list →
  upload_loop BAUD_RATE esptool device i file_list current_address w =
  (inr current_address, w).
Proof.
  intros Hall. revert i. induction Hall as [|x l Hx _ IH]; intros i; [done|].
  by rewrite upload_loop_unwanted.
Qed.

End Unnamed.

Lemma plan_from_nil (ordered : list ZipInfo) (a : Z) :
  plan_from ordered a = inr [] → Forall (λ x, unwanted x = true) ordered.
Proof.
  induction ordered as [|x ordered IH]; [done|].
  destruct (unwanted x) eqn:Hx.
  - rewrite plan_from_unwanted by done. intros Hrest. constructor; auto.
  - unfold unwanted in Hx. simpl. destruct (filename x) as [name|]; [|done].
    rewrite Hx. destruct (temp_path name); [|done].
    clear IH. by destruct (plan_from ordered _).
Qed.

(** X10.  The temporary file is named after the last extension of the entry
    alone: for a name [stem.ext] whose [ext] has no dot it is [temp.ext],
    whatever the stem, so entries with the same extension share one temporary
    file; and a name has no temporary file exactly when no dot occurs in it. *)
Theorem temp_path_is_extension (stem ext name : string) :
  (¬ occurs_in "." ext → temp_path (stem ++ "." ++ ext) = Some ("temp." ++ ext)) ∧
  (temp_path name = None ↔ ¬ occurs_in "." name).
Proof.
  split; [|apply temp_path_none].
  intros Hext%contains_false%rindex_none. unfold temp_path.
  by rewrite (rindex_dot _ _ Hext), slice_from_append.
Qed.

Lemma temp_path_is_extension_witness :
  temp_path ("firmware/v2.1/boot" ++ "." ++ "bin") = Some ("temp." ++ "bin").
Proof.
  refine (proj1 (temp_path_is_extension "firmware/v2.1/boot" "bin" "") _).
  apply contains_false. reflexivity.
Defined.

(** X11.  An entry whose name holds no dot and is not ["/"] (a directory entry
    such as [data/], say) stops the loop with [ValueError] when it is reached:
    the member is opened and announced, no temporary file is written, no
    process is run for it, and the entries after it are not uploaded. *)
Theorem dotless_entry_stops_loop
    (BAUD_RATE : string) (esptool : list event → list string → CompletedProcess)
    (device : ESP32) (i : Z) (before rest : list ZipInfo) (file_name : ZipInfo)
    (current_address a1 : Z) (w w1 : World) (name : string) :
  upload_loop BAUD_RATE esptool device i before current_address w = (inr a1, w1) →
  filename file_name = Some name → name ≠ "/" → ¬ occurs_in "." name →
  upload_loop BAUD_RATE esptool device i (before ++ file_name :: rest) current_address w =
  (inl ValueError,
   mkWorld (files w1) (log w1 ++ announce (i + Z.of_nat (length before)) name)).
Proof.
  intros Hbefore Hname Hsep Hdot%temp_path_none.
  rewrite upload_loop_app, Hbefore.
  by apply upload_loop_no_dot.
Qed.

Lemma dotless_entry_stops_loop_witness :
  upload_loop "115200" tool_ok (mkESP32 "COM3") 1
    ([slash] ++ mkZipInfo (Some "data/") [] :: [a_txt]) 0 empty_world =
  (inl ValueError, mkWorld ∅ [EvZipMemberOpen "data/"; EvPrint "  (2) - data/"]).
Proof.
  refine (dotless_entry_stops_loop "115200" tool_ok (mkESP32 "COM3") 1 [slash] [a_txt]
            (mkZipInfo (Some "data/") []) 0 0 empty_world empty_world "data/" _ _ _ _).
  - reflexivity.
  - reflexivity.
  - discriminate.
  - apply contains_false. reflexivity.
Defined.

(** X12.  An archive whose plan is empty (no entries, or only entries the
    guard skips): the session still erases the flash, writes nothing, leaves
    the local files alone and reports success. *)
Theorem empty_plan_erases_only
    (BAUD_RATE : string) (comports : list event → list (string * string * string))
    (esptool : list event → list string → CompletedProcess)
    (askopenfilename : list event → string)
    (zip_filelist : list event → string → option (list ZipInfo))
    (w w1 : World) (device : ESP32) (status : Z) (filelist : list ZipInfo) :
  get_device BAUD_RATE comports esptool
    (mkWorld (files w)
       (log w ++ [EvAskOpenFilename;
                  EvStatusConfig "Uploading files... (this may take a while)";
                  EvUpdate])) = (inr (Some device, status), w1) →
  returncode (esptool (log w1) (erase_flash_args BAUD_RATE device)) = 0 →
  zip_filelist (log w1 ++ [EvSubprocessRun (erase_flash_args BAUD_RATE device)])%list
    (askopenfilename (log w)) = Some filelist →
  plan filelist = inr [] →
  ∃ w', upload_zip_folder BAUD_RATE comports esptool askopenfilename zip_filelist
          (Some DEVICE_FOUND) w = (inr true, w') ∧
        runs (log w') = (runs (log w1) ++ [erase_flash_args BAUD_RATE device])%list ∧
        files w' = files w1.
Proof.
  intros Hget Hrc Hzip Hplan. rewrite upload_zip_folder_eq, Hget. cbn zeta.
  rewrite Hrc. cbn [files log]. rewrite Hzip.
  unfold plan in Hplan. destruct (file_list filelist) as [|ordered]; [done|].
  apply plan_from_nil in Hplan.
  rewrite (upload_loop_all_unwanted _ _ _ _ _ _ _ Hplan).
  eexists. split; [reflexivity|]. cbn [files log]. split; [|done].
  rewrite !runs_app. simpl. by rewrite !app_nil_r.
Qed.

Lemma empty_plan_erases_only_witness :
  ∃ w', session tool_ok [slash; slash] = (inr true, w') ∧
        runs (log w') = (runs resolved_log ++
                         [["esptool"; "--port"; "COM3"; "--baud"; "115200"; "erase_flash"]])%list ∧
        files w' = ∅.
Proof.
  refine (empty_plan_erases_only "115200" (λ _, [port_info "COM3"]) tool_ok
            (λ _, "bundle.zip") (bundle [slash; slash]) empty_world (mkWorld ∅ resolved_log)
            (mkESP32 "COM3") DEVICE_FOUND [slash; slash] _ _ _ _).
  - vm_compute. reflexivity.
  - reflexivity.
  - reflexivity.
  - reflexivity.
Defined.

(** ** The flash regions of a plan *)

Lemma size_of_nonneg (x : ZipInfo) : 0 ≤ size_of x.
Proof. unfold size_of. lia. Qed.

Lemma bytes_before_cons (k : nat) (entry : ZipInfo * Z) (p : list (ZipInfo * Z)) :
  bytes_before (S k) (entry :: p) = size_of entry.1 + bytes_before k p.
Proof. reflexivity. Qed.

(** Where the entry number [k] of a plan that starts at [a] lies. *)
Lemma plan_from_bounds (k : nat) (ordered : list ZipInfo) (a : Z)
    (p : list (ZipInfo * Z)) (x : ZipInfo) (ax : Z) :
  plan_from ordered a = inr p → p !! k = Some (x, ax) →
  a + bytes_before k p ≤ ax ≤ a + bytes_before k p + Z.of_nat k * CHUNK_SIZE ∧
  (a `mod` CHUNK_SIZE = 0 → ax `mod` CHUNK_SIZE = 0).
Proof.
  revert ordered a p. induction k as [|k IH]; intros ordered a p Hp Hx.
  - destruct p as [|[x' ax'] later]; simplify_eq/=.
    apply plan_from_cons in Hp as [-> _]. unfold bytes_before. simpl. split; [lia | done].
  - destruct p as [|[x0 a0] later]; [done|]. simpl in Hx.
    apply plan_from_cons in Hp as [-> [rest Hrest]].
    destruct (IH _ _ _ Hrest Hx) as [Hbound Hmod].
    rewrite bytes_before_cons. simpl. fold (size_of x0) in Hbound, Hmod.
    destruct (next_address_facts (a + size_of x0)) as (Hnext & Hstep & _).
    cbn zeta in Hnext, Hstep. split; [|intros _; by apply Hmod].
    unfold CHUNK_SIZE in *. lia.
Qed.

(** What comes after the entry number [k] is a plan from the address line 234
    computes. *)
Lemma plan_from_after (k : nat) (ordered : list ZipInfo) (a : Z)
    (p : list (ZipInfo * Z)) (x : ZipInfo) (ax : Z) :
  plan_from ordered a = inr p → p !! k = Some (x, ax) →
  ∃ rest, plan_from rest (((ax + size_of x) `div` CHUNK_SIZE + 1) * CHUNK_SIZE) =
          inr (drop (S k) p).
Proof.
  revert ordered a p. induction k as [|k IH]; intros ordered a p Hp Hx.
  - destruct p as [|[x' ax'] later]; simplify_eq/=.
    by apply plan_from_cons in Hp as [-> Hrest].
  - destruct p as [|[x0 a0] later]; [done|]. simpl in Hx.
    apply plan_from_cons in Hp as [-> [rest Hrest]].
    by eapply (IH rest _ later).
Qed.

(** X13.  The flash regions of a plan are chunk aligned and disjoint: every
    address is a non-negative multiple of the chunk size, and an entry later
    in the plan starts strictly above the last byte of every earlier entry. *)
Theorem plan_regions_disjoint (filelist : list ZipInfo) (p : list (ZipInfo * Z)) :
  plan filelist = inr p →
  (∀ k x ax, p !! k = Some (x, ax) → 0 ≤ ax ∧ ax `mod` CHUNK_SIZE = 0) ∧
  (∀ i j x ax y ay, (i < j)%nat → p !! i = Some (x, ax) → p !! j = Some (y, ay) →
     ax + size_of x < ay).
Proof.
  unfold plan. destruct (file_list filelist) as [|ordered]; [done|]. intros Hp. split.
  - intros k x ax Hx. destruct (plan_from_bounds _ _ _ _ _ _ Hp Hx) as [Hbound Hmod].
    split; [|by apply Hmod].
    assert (0 ≤ bytes_before k p); [|lia].
    unfold bytes_before. induction (take k p) as [|e l IHl]; simpl; [done|].
    pose proof (size_of_nonneg e.1). lia.
  - intros i j x ax y ay Hij Hx Hy.
    destruct (plan_from_after _ _ _ _ _ _ Hp Hx) as [rest Hrest].
    assert (drop (S i) p !! (j - S i)%nat = Some (y, ay)) as Hy'.
    { rewrite lookup_drop. by replace (S i + (j - S i))%nat with j by lia. }
    destruct (plan_from_bounds _ _ _ _ _ _ Hrest Hy') as [Hbound _].
    destruct (next_address_facts (ax + size_of x)) as (_ & Hstep & _). cbn zeta in Hstep.
    assert (0 ≤ bytes_before (j - S i) (drop (S i) p)); [|lia].
    unfold bytes_before. induction (take _ _) as [|e l IHl]; simpl; [done|].
    pose proof (size_of_nonneg e.1). lia.
Qed.

Lemma plan_regions_disjoint_witness :
  (0 ≤ 0x2000 ∧ 0x2000 `mod` CHUNK_SIZE = 0) ∧ 0x0 + size_of b_bin < 0x2000.
Proof.
  destruct (plan_regions_disjoint [a_txt; b_bin; slash] [(b_bin, 0x0); (a_txt, 0x2000)] eq_refl)
    as [Haligned Hdisjoint].
  split.
  - exact (Haligned 1%nat a_txt 0x2000 eq_refl).
  - exact (Hdisjoint 0%nat 1%nat b_bin 0x0 a_txt 0x2000 ltac:(lia) eq_refl eq_refl).
Defined.

(** X14.  The padding of a plan is at most one chunk per entry: the entry
    number [k] starts no lower than the bytes of the entries before it, and no
    higher than those bytes plus [k] chunks. *)
Theorem plan_padding_bounded (filelist : list ZipInfo) (p : list (ZipInfo * Z))
    (k : nat) (x : ZipInfo) (ax : Z) :
  plan filelist = inr p → p !! k = Some (x, ax) →
  bytes_before k p ≤ ax ≤ bytes_before k p + Z.of_nat k * CHUNK_SIZE.
Proof.
  unfold plan. destruct (file_list filelist) as [|ordered]; [done|]. intros Hp Hx.
  destruct (plan_from_bounds _ _ _ _ _ _ Hp Hx) as [Hbound _]. lia.
Qed.

Lemma plan_padding_bounded_witness :
  bytes_before 1 [(b_bin, 0x0); (a_txt, 0x2000)] ≤ 0x2000 ≤
  bytes_before 1 [(b_bin, 0x0); (a_txt, 0x2000)] + Z.of_nat 1 * CHUNK_SIZE.
Proof.
  exact (plan_padding_bounded [a_txt; b_bin; slash] [(b_bin, 0x0); (a_txt, 0x2000)]
           1 a_txt 0x2000 eq_refl eq_refl).
Defined.

(** ** The commands of a session *)

Section Commands.

Variable BAUD_RATE : string.
Variable comports : list event → list (string * string * string).
Variable esptool : list event → list string → CompletedProcess.

Lemma runs_probe_events (ports : list (string * string * string)) :
  runs (map (probe_event BAUD_RATE) ports) =
  map (λ p, flash_id_args BAUD_RATE (mkESP32 p.1.1)) ports ∧
  Forall (is_probe BAUD_RATE) (runs (map (probe_event BAUD_RATE) ports)).
Proof.
  induction ports as [|p ports [IHeq IHall]]; [by split|]. split.
  - simpl. f_equal. exact IHeq.
  - constructor; [by eexists | exact IHall].
Qed.

Lemma get_device_runs (w : World) :
  ∃ probes, runs (log (get_device BAUD_RATE comports esptool w).2) =
              (runs (log w) ++ probes)%list ∧
            Forall (is_probe BAUD_RATE) probes.
Proof.
  rewrite get_device_eq.
  destruct (get_device_loop BAUD_RATE esptool (comports (log w))
              (mkWorld (files w) (log w ++ [EvComports]))) as [r w'] eqn:Hloop.
  destruct (get_device_loop_probes _ _ _ _ _ _ Hloop) as (_ & k & _ & Hlog).
  simpl in *. exists (runs (map (probe_event BAUD_RATE) (take k (comports (log w))))).
  split; [|apply runs_probe_events].
  rewrite Hlog, !runs_app. simpl. by rewrite app_nil_r.
Qed.

(** In every outcome the loop runs nothing but writes to its device. *)
Lemma upload_loop_runs (device : ESP32) (file_list : list ZipInfo) (i : Z)
    (current_address : Z) (w : World) :
  ∃ writes, runs (log (upload_loop BAUD_RATE esptool device i file_list current_address w).2) =
              (runs (log w) ++ writes)%list ∧
            Forall (is_write_to BAUD_RATE device) writes.
Proof.
  revert i current_address w.
  induction file_list as [|x rest IH]; intros i a w.
  { exists []. split; [by rewrite app_nil_r | done]. }
  destruct (unwanted x) eqn:Hskip.
  { rewrite upload_loop_unwanted by done. apply IH. }
  unfold unwanted in Hskip. destruct (filename x) as [name|] eqn:Hname; [|done].
  apply bool_decide_eq_false in Hskip.
  destruct (temp_path name) as [path|] eqn:Hpath.
  - rewrite (upload_loop_wanted _ _ _ _ _ _ _ _ name path) by done. cbn zeta.
    destruct (_ =? 0).
    + match goal with |- context [upload_loop _ _ _ ?i' _ ?a' ?w'] =>
        destruct (IH i' a' w') as (writes & Hruns & Hall) end.
      exists (write_flash_args BAUD_RATE device a path :: writes). split.
      * rewrite Hruns. simpl. rewrite !runs_app. simpl.
        by rewrite !app_nil_r, <- app_assoc.
      * constructor; [by eexists; eexists | done].
    + exists [write_flash_args BAUD_RATE device a path]. split.
      * simpl. rewrite !runs_app. simpl. by rewrite !app_nil_r.
      * constructor; [by eexists; eexists | done].
  - rewrite (upload_loop_no_dot _ _ _ _ _ _ _ _ name) by done.
    exists []. split; [|done]. simpl. rewrite runs_app. simpl. by rewrite !app_nil_r.
Qed.

End Commands.

(** X15.  Whatever the surroundings do and however the session ends, the
    processes [upload_zip_folder] runs are, in this order: [flash_id] probes;
    then nothing more, or one [erase_flash] of a device followed by
    [write_flash] commands for that same device only.  So nothing is written
    before the erase and nothing is written to another port. *)
Theorem session_commands
    (BAUD_RATE : string) (comports : list event → list (string * string * string))
    (esptool : list event → list string → CompletedProcess)
    (askopenfilename : list event → string)
    (zip_filelist : list event → string → option (list ZipInfo))
    (current_status : option Z) (w : World) :
  ∃ probes rest,
    runs (log (upload_zip_folder BAUD_RATE comports esptool askopenfilename zip_filelist
                 current_status w).2) = (runs (log w) ++ probes ++ rest)%list ∧
    Forall (is_probe BAUD_RATE) probes ∧
    (rest = [] ∨
     ∃ device writes, rest = erase_flash_args BAUD_RATE device :: writes ∧
                      Forall (is_write_to BAUD_RATE device) writes).
Proof.
  destruct (decide (current_status = Some DEVICE_FOUND)) as [-> | Hstatus].
  2: { unfold upload_zip_folder. rewrite bool_decide_eq_false_2 by done.
       exists [], []. split; [by rewrite app_nil_r | by split; [|left]]. }
  rewrite upload_zip_folder_eq.
  match goal with |- context [get_device _ _ _ ?w0] =>
    destruct (get_device_runs BAUD_RATE comports esptool w0) as (probes & Hprobes & Hall);
    destruct (get_device BAUD_RATE comports esptool w0) as [[e|[[device|] status]] w1]
  end; simpl in Hprobes; rewrite runs_app in Hprobes; simpl in Hprobes;
    rewrite app_nil_r in Hprobes.
  - exists probes, []. rewrite app_nil_r. by split; [|split; [|left]].
  - cbn zeta. exists probes.
    destruct (_ =? 0).
    + cbn [files log]. destruct (zip_filelist _ _) as [filelist|].
      * destruct (file_list filelist) as [e|ordered].
        -- exists [erase_flash_args BAUD_RATE device]. split; [|split; [done|]].
           ++ simpl. rewrite !runs_app, Hprobes. simpl.
              by rewrite !app_nil_r, <- !app_assoc.
           ++ right. by exists device, [].
        -- match goal with |- context [upload_loop _ _ ?d ?i ?l ?a ?w2] =>
             destruct (upload_loop_runs BAUD_RATE esptool d l i a w2)
               as (writes & Hwrites & Hwall);
             destruct (upload_loop BAUD_RATE esptool d i l a w2) as [[e|a'] w3]
           end; simpl in Hwrites; rewrite !runs_app, Hprobes in Hwrites; simpl in Hwrites;
             rewrite !app_nil_r in Hwrites;
             (exists (erase_flash_args BAUD_RATE device :: writes);
              split; [|split; [done | right; by exists device, writes]];
              simpl; rewrite !runs_app, Hwrites; simpl;
              by rewrite ?app_nil_r, <- !app_assoc).
      * exists [erase_flash_args BAUD_RATE device]. split; [|split; [done|]].
        -- simpl. rewrite !runs_app, Hprobes. simpl. by rewrite <- !app_assoc.
        -- right. by exists device, [].
    + exists [erase_flash_args BAUD_RATE device]. split; [|split; [done|]].
      * simpl. rewrite !runs_app, Hprobes. simpl. by rewrite <- !app_assoc.
      * right. by exists device, [].
  - exists probes, []. rewrite app_nil_r. by split; [|split; [|left]].
Qed.

(** ** A session on which nothing fails *)




(** ** The reordering loses nothing *)

Lemma filter_complement_perm {A} (f : A → bool) (l : list A) :
  (List.filter f l ++ List.filter (λ x, negb (f x)) l)%list ≡ₚ l.
Proof.
  induction l as [|x l IH]; simpl; [done|].
  destruct (f x); simpl.
  - by rewrite IH.
  - by rewrite <- Permutation_middle, IH.
Qed.

Lemma select_none (want : bool) (l : list ZipInfo) :
  select want l = inl AttributeError ↔ ∃ x, x ∈ l ∧ filename x = None.
Proof.
  induction l as [|x l IH]; simpl.
  - split; [done | by intros (x & Hx%elem_of_nil & _)].
  - destruct (filename x) as [name|] eqn:Hname.
    + destruct (select want l) as [e|chosen] eqn:Hsel.
      * rewrite (select_error _ _ _ Hsel) in *. split; [|done].
        intros _. destruct (proj1 IH eq_refl) as (y & Hy & Hnone).
        exists y. split; [by apply list_elem_of_further | done].
      * split; [done|]. intros (y & [-> | Hy]%elem_of_cons & Hnone); [congruence|].
        discriminate (proj2 IH (ex_intro _ y (conj Hy Hnone))).
    + split; [|done]. intros _. exists x. split; [apply list_elem_of_here | done].
Qed.

(** X17.  The order of lines 203-204 is a rearrangement of the archive: every
    entry is in it exactly as often as in the archive, so nothing is lost or
    doubled and the count the session prints is the number of entries of the
    archive, skipped ones included.  The only way the reordering fails is
    [AttributeError], and it fails exactly when some entry has no name. *)
Theorem file_list_rearranges (filelist : list ZipInfo) :
  (∀ ordered, file_list filelist = inr ordered →
     ordered ≡ₚ filelist ∧ length ordered = length filelist) ∧
  (∀ e, file_list filelist = inl e →
     e = AttributeError ∧ ∃ x, x ∈ filelist ∧ filename x = None) ∧
  ((∃ x, x ∈ filelist ∧ filename x = None) → file_list filelist = inl AttributeError).
Proof.
  unfold file_list. split; [|split].
  - intros ordered.
    destruct (select true filelist) as [|images] eqn:Hi; [done|].
    destruct (select false filelist) as [|others] eqn:Ho; [done|].
    intros [= <-]. apply select_filter in Hi, Ho. subst.
    assert ((List.filter (λ x, Bool.eqb (is_image x) true) filelist ++
             List.filter (λ x, Bool.eqb (is_image x) false) filelist)%list ≡ₚ filelist)
      as Hperm.
    { rewrite (List.filter_ext (λ x, Bool.eqb (is_image x) true) is_image)
        by (intros x; by destruct (is_image x)).
      rewrite (List.filter_ext (λ x, Bool.eqb (is_image x) false) (λ x, negb (is_image x)))
        by (intros x; by destruct (is_image x)).
      apply filter_complement_perm. }
    split; [exact Hperm | by rewrite Hperm].
  - intros e. destruct (select true filelist) as [e1|images] eqn:Hi.
    + intros [= <-]. pose proof (select_error _ _ _ Hi) as ->.
      split; [done | by apply (select_none true)].
    + destruct (select false filelist) as [e2|others] eqn:Ho; [|done].
      intros [= <-]. pose proof (select_error _ _ _ Ho) as ->.
      split; [done | by apply (select_none false)].
  - intros Hnone%(select_none true). by rewrite Hnone.
Qed.

Lemma file_list_rearranges_witness :
  [b_bin; a_txt; slash] ≡ₚ [a_txt; b_bin; slash] ∧
  length [b_bin; a_txt; slash] = length [a_txt; b_bin; slash].
Proof.
  exact (proj1 (file_list_rearranges [a_txt; b_bin; slash]) [b_bin; a_txt; slash] eq_refl).
Defined.
